(** * BuildXL sandbox: the IOEvent record and the interposing event constructors

    A shallow embedding of
      - [Public/Src/Sandbox/MacOs/Interop/Sandbox/Data/IOEvent.hpp]
        (the [IOEvent] struct, its inline constructors and accessors,
        [max_size] and the [ES_EVENT_CONSTRUCTOR] macro),
      - [Public/Src/Sandbox/MacOs/Detours/Detours.hpp]
        (the [*_EVENT_CONSTRUCTOR] macros of the interposed wrappers),
      - [Public/Src/Sandbox/Linux/stdafx-linux.h]
        (the [es_event_type_t] enumeration and [audit_token_t]).

    Integers of the program ([pid_t], [mode_t], [int], [size_t]) are
    modelled in [Z]; [std::string] and C strings are [string], a
    [const char*] that may be null is an [option string]. *)

From Stdlib Require Import ZArith String Ascii Decimal DecimalString DecimalPos DecimalZ.
From stdpp Require Import base option list strings gmap.

Local Open Scope string_scope.
Local Open Scope Z_scope.

(** ** [es_event_type_t] (stdafx-linux.h) *)

Inductive es_event_type_t : Set :=
  | ES_EVENT_TYPE_AUTH_EXEC
  | ES_EVENT_TYPE_AUTH_OPEN
  | ES_EVENT_TYPE_AUTH_KEXTLOAD
  | ES_EVENT_TYPE_AUTH_MMAP
  | ES_EVENT_TYPE_AUTH_MPROTECT
  | ES_EVENT_TYPE_AUTH_MOUNT
  | ES_EVENT_TYPE_AUTH_RENAME
  | ES_EVENT_TYPE_AUTH_SIGNAL
  | ES_EVENT_TYPE_AUTH_UNLINK
  | ES_EVENT_TYPE_NOTIFY_EXEC
  | ES_EVENT_TYPE_NOTIFY_OPEN
  | ES_EVENT_TYPE_NOTIFY_FORK
  | ES_EVENT_TYPE_NOTIFY_CLOSE
  | ES_EVENT_TYPE_NOTIFY_CREATE
  | ES_EVENT_TYPE_NOTIFY_EXCHANGEDATA
  | ES_EVENT_TYPE_NOTIFY_EXIT
  | ES_EVENT_TYPE_NOTIFY_GET_TASK
  | ES_EVENT_TYPE_NOTIFY_KEXTLOAD
  | ES_EVENT_TYPE_NOTIFY_KEXTUNLOAD
  | ES_EVENT_TYPE_NOTIFY_LINK
  | ES_EVENT_TYPE_NOTIFY_MMAP
  | ES_EVENT_TYPE_NOTIFY_MPROTECT
  | ES_EVENT_TYPE_NOTIFY_MOUNT
  | ES_EVENT_TYPE_NOTIFY_UNMOUNT
  | ES_EVENT_TYPE_NOTIFY_IOKIT_OPEN
  | ES_EVENT_TYPE_NOTIFY_RENAME
  | ES_EVENT_TYPE_NOTIFY_SETATTRLIST
  | ES_EVENT_TYPE_NOTIFY_SETEXTATTR
  | ES_EVENT_TYPE_NOTIFY_SETFLAGS
  | ES_EVENT_TYPE_NOTIFY_SETMODE
  | ES_EVENT_TYPE_NOTIFY_SETOWNER
  | ES_EVENT_TYPE_NOTIFY_SIGNAL
  | ES_EVENT_TYPE_NOTIFY_UNLINK
  | ES_EVENT_TYPE_NOTIFY_WRITE
  | ES_EVENT_TYPE_AUTH_FILE_PROVIDER_MATERIALIZE
  | ES_EVENT_TYPE_NOTIFY_FILE_PROVIDER_MATERIALIZE
  | ES_EVENT_TYPE_AUTH_FILE_PROVIDER_UPDATE
  | ES_EVENT_TYPE_NOTIFY_FILE_PROVIDER_UPDATE
  | ES_EVENT_TYPE_AUTH_READLINK
  | ES_EVENT_TYPE_NOTIFY_READLINK
  | ES_EVENT_TYPE_AUTH_TRUNCATE
  | ES_EVENT_TYPE_NOTIFY_TRUNCATE
  | ES_EVENT_TYPE_AUTH_LINK
  | ES_EVENT_TYPE_NOTIFY_LOOKUP
  | ES_EVENT_TYPE_AUTH_CREATE
  | ES_EVENT_TYPE_AUTH_SETATTRLIST
  | ES_EVENT_TYPE_AUTH_SETEXTATTR
  | ES_EVENT_TYPE_AUTH_SETFLAGS
  | ES_EVENT_TYPE_AUTH_SETMODE
  | ES_EVENT_TYPE_AUTH_SETOWNER
  | ES_EVENT_TYPE_AUTH_CHDIR
  | ES_EVENT_TYPE_NOTIFY_CHDIR
  | ES_EVENT_TYPE_AUTH_GETATTRLIST
  | ES_EVENT_TYPE_NOTIFY_GETATTRLIST
  | ES_EVENT_TYPE_NOTIFY_STAT
  | ES_EVENT_TYPE_NOTIFY_ACCESS
  | ES_EVENT_TYPE_AUTH_CHROOT
  | ES_EVENT_TYPE_NOTIFY_CHROOT
  | ES_EVENT_TYPE_AUTH_UTIMES
  | ES_EVENT_TYPE_NOTIFY_UTIMES
  | ES_EVENT_TYPE_AUTH_CLONE
  | ES_EVENT_TYPE_NOTIFY_CLONE
  | ES_EVENT_TYPE_NOTIFY_FCNTL
  | ES_EVENT_TYPE_AUTH_GETEXTATTR
  | ES_EVENT_TYPE_NOTIFY_GETEXTATTR
  | ES_EVENT_TYPE_AUTH_LISTEXTATTR
  | ES_EVENT_TYPE_NOTIFY_LISTEXTATTR
  | ES_EVENT_TYPE_AUTH_READDIR
  | ES_EVENT_TYPE_NOTIFY_READDIR
  | ES_EVENT_TYPE_AUTH_DELETEEXTATTR
  | ES_EVENT_TYPE_NOTIFY_DELETEEXTATTR
  | ES_EVENT_TYPE_AUTH_FSGETPATH
  | ES_EVENT_TYPE_NOTIFY_FSGETPATH
  | ES_EVENT_TYPE_NOTIFY_DUP
  | ES_EVENT_TYPE_AUTH_SETTIME
  | ES_EVENT_TYPE_NOTIFY_SETTIME
  | ES_EVENT_TYPE_NOTIFY_UIPC_BIND
  | ES_EVENT_TYPE_AUTH_UIPC_BIND
  | ES_EVENT_TYPE_NOTIFY_UIPC_CONNECT
  | ES_EVENT_TYPE_AUTH_UIPC_CONNECT
  | ES_EVENT_TYPE_AUTH_EXCHANGEDATA
  | ES_EVENT_TYPE_AUTH_SETACL
  | ES_EVENT_TYPE_NOTIFY_SETACL
  | ES_EVENT_TYPE_NOTIFY_PTY_GRANT
  | ES_EVENT_TYPE_NOTIFY_PTY_CLOSE
  | ES_EVENT_TYPE_AUTH_PROC_CHECK
  | ES_EVENT_TYPE_NOTIFY_PROC_CHECK
  | ES_EVENT_TYPE_AUTH_GET_TASK
  | ES_EVENT_TYPE_LAST.

Definition es_event_type_value (t : es_event_type_t) : Z :=
  match t with
  | ES_EVENT_TYPE_AUTH_EXEC => 0
  | ES_EVENT_TYPE_AUTH_OPEN => 1
  | ES_EVENT_TYPE_AUTH_KEXTLOAD => 2
  | ES_EVENT_TYPE_AUTH_MMAP => 3
  | ES_EVENT_TYPE_AUTH_MPROTECT => 4
  | ES_EVENT_TYPE_AUTH_MOUNT => 5
  | ES_EVENT_TYPE_AUTH_RENAME => 6
  | ES_EVENT_TYPE_AUTH_SIGNAL => 7
  | ES_EVENT_TYPE_AUTH_UNLINK => 8
  | ES_EVENT_TYPE_NOTIFY_EXEC => 9
  | ES_EVENT_TYPE_NOTIFY_OPEN => 10
  | ES_EVENT_TYPE_NOTIFY_FORK => 11
  | ES_EVENT_TYPE_NOTIFY_CLOSE => 12
  | ES_EVENT_TYPE_NOTIFY_CREATE => 13
  | ES_EVENT_TYPE_NOTIFY_EXCHANGEDATA => 14
  | ES_EVENT_TYPE_NOTIFY_EXIT => 15
  | ES_EVENT_TYPE_NOTIFY_GET_TASK => 16
  | ES_EVENT_TYPE_NOTIFY_KEXTLOAD => 17
  | ES_EVENT_TYPE_NOTIFY_KEXTUNLOAD => 18
  | ES_EVENT_TYPE_NOTIFY_LINK => 19
  | ES_EVENT_TYPE_NOTIFY_MMAP => 20
  | ES_EVENT_TYPE_NOTIFY_MPROTECT => 21
  | ES_EVENT_TYPE_NOTIFY_MOUNT => 22
  | ES_EVENT_TYPE_NOTIFY_UNMOUNT => 23
  | ES_EVENT_TYPE_NOTIFY_IOKIT_OPEN => 24
  | ES_EVENT_TYPE_NOTIFY_RENAME => 25
  | ES_EVENT_TYPE_NOTIFY_SETATTRLIST => 26
  | ES_EVENT_TYPE_NOTIFY_SETEXTATTR => 27
  | ES_EVENT_TYPE_NOTIFY_SETFLAGS => 28
  | ES_EVENT_TYPE_NOTIFY_SETMODE => 29
  | ES_EVENT_TYPE_NOTIFY_SETOWNER => 30
  | ES_EVENT_TYPE_NOTIFY_SIGNAL => 31
  | ES_EVENT_TYPE_NOTIFY_UNLINK => 32
  | ES_EVENT_TYPE_NOTIFY_WRITE => 33
  | ES_EVENT_TYPE_AUTH_FILE_PROVIDER_MATERIALIZE => 34
  | ES_EVENT_TYPE_NOTIFY_FILE_PROVIDER_MATERIALIZE => 35
  | ES_EVENT_TYPE_AUTH_FILE_PROVIDER_UPDATE => 36
  | ES_EVENT_TYPE_NOTIFY_FILE_PROVIDER_UPDATE => 37
  | ES_EVENT_TYPE_AUTH_READLINK => 38
  | ES_EVENT_TYPE_NOTIFY_READLINK => 39
  | ES_EVENT_TYPE_AUTH_TRUNCATE => 40
  | ES_EVENT_TYPE_NOTIFY_TRUNCATE => 41
  | ES_EVENT_TYPE_AUTH_LINK => 42
  | ES_EVENT_TYPE_NOTIFY_LOOKUP => 43
  | ES_EVENT_TYPE_AUTH_CREATE => 44
  | ES_EVENT_TYPE_AUTH_SETATTRLIST => 45
  | ES_EVENT_TYPE_AUTH_SETEXTATTR => 46
  | ES_EVENT_TYPE_AUTH_SETFLAGS => 47
  | ES_EVENT_TYPE_AUTH_SETMODE => 48
  | ES_EVENT_TYPE_AUTH_SETOWNER => 49
  | ES_EVENT_TYPE_AUTH_CHDIR => 50
  | ES_EVENT_TYPE_NOTIFY_CHDIR => 51
  | ES_EVENT_TYPE_AUTH_GETATTRLIST => 52
  | ES_EVENT_TYPE_NOTIFY_GETATTRLIST => 53
  | ES_EVENT_TYPE_NOTIFY_STAT => 54
  | ES_EVENT_TYPE_NOTIFY_ACCESS => 55
  | ES_EVENT_TYPE_AUTH_CHROOT => 56
  | ES_EVENT_TYPE_NOTIFY_CHROOT => 57
  | ES_EVENT_TYPE_AUTH_UTIMES => 58
  | ES_EVENT_TYPE_NOTIFY_UTIMES => 59
  | ES_EVENT_TYPE_AUTH_CLONE => 60
  | ES_EVENT_TYPE_NOTIFY_CLONE => 61
  | ES_EVENT_TYPE_NOTIFY_FCNTL => 62
  | ES_EVENT_TYPE_AUTH_GETEXTATTR => 63
  | ES_EVENT_TYPE_NOTIFY_GETEXTATTR => 64
  | ES_EVENT_TYPE_AUTH_LISTEXTATTR => 65
  | ES_EVENT_TYPE_NOTIFY_LISTEXTATTR => 66
  | ES_EVENT_TYPE_AUTH_READDIR => 67
  | ES_EVENT_TYPE_NOTIFY_READDIR => 68
  | ES_EVENT_TYPE_AUTH_DELETEEXTATTR => 69
  | ES_EVENT_TYPE_NOTIFY_DELETEEXTATTR => 70
  | ES_EVENT_TYPE_AUTH_FSGETPATH => 71
  | ES_EVENT_TYPE_NOTIFY_FSGETPATH => 72
  | ES_EVENT_TYPE_NOTIFY_DUP => 73
  | ES_EVENT_TYPE_AUTH_SETTIME => 74
  | ES_EVENT_TYPE_NOTIFY_SETTIME => 75
  | ES_EVENT_TYPE_NOTIFY_UIPC_BIND => 76
  | ES_EVENT_TYPE_AUTH_UIPC_BIND => 77
  | ES_EVENT_TYPE_NOTIFY_UIPC_CONNECT => 78
  | ES_EVENT_TYPE_AUTH_UIPC_CONNECT => 79
  | ES_EVENT_TYPE_AUTH_EXCHANGEDATA => 80
  | ES_EVENT_TYPE_AUTH_SETACL => 81
  | ES_EVENT_TYPE_NOTIFY_SETACL => 82
  | ES_EVENT_TYPE_NOTIFY_PTY_GRANT => 83
  | ES_EVENT_TYPE_NOTIFY_PTY_CLOSE => 84
  | ES_EVENT_TYPE_AUTH_PROC_CHECK => 85
  | ES_EVENT_TYPE_NOTIFY_PROC_CHECK => 86
  | ES_EVENT_TYPE_AUTH_GET_TASK => 87
  | ES_EVENT_TYPE_LAST => 88
  end.

Definition es_event_type_of_value (z : Z) : option es_event_type_t :=
  match z with
  | 0 => Some ES_EVENT_TYPE_AUTH_EXEC
  | 1 => Some ES_EVENT_TYPE_AUTH_OPEN
  | 2 => Some ES_EVENT_TYPE_AUTH_KEXTLOAD
  | 3 => Some ES_EVENT_TYPE_AUTH_MMAP
  | 4 => Some ES_EVENT_TYPE_AUTH_MPROTECT
  | 5 => Some ES_EVENT_TYPE_AUTH_MOUNT
  | 6 => Some ES_EVENT_TYPE_AUTH_RENAME
  | 7 => Some ES_EVENT_TYPE_AUTH_SIGNAL
  | 8 => Some ES_EVENT_TYPE_AUTH_UNLINK
  | 9 => Some ES_EVENT_TYPE_NOTIFY_EXEC
  | 10 => Some ES_EVENT_TYPE_NOTIFY_OPEN
  | 11 => Some ES_EVENT_TYPE_NOTIFY_FORK
  | 12 => Some ES_EVENT_TYPE_NOTIFY_CLOSE
  | 13 => Some ES_EVENT_TYPE_NOTIFY_CREATE
  | 14 => Some ES_EVENT_TYPE_NOTIFY_EXCHANGEDATA
  | 15 => Some ES_EVENT_TYPE_NOTIFY_EXIT
  | 16 => Some ES_EVENT_TYPE_NOTIFY_GET_TASK
  | 17 => Some ES_EVENT_TYPE_NOTIFY_KEXTLOAD
  | 18 => Some ES_EVENT_TYPE_NOTIFY_KEXTUNLOAD
  | 19 => Some ES_EVENT_TYPE_NOTIFY_LINK
  | 20 => Some ES_EVENT_TYPE_NOTIFY_MMAP
  | 21 => Some ES_EVENT_TYPE_NOTIFY_MPROTECT
  | 22 => Some ES_EVENT_TYPE_NOTIFY_MOUNT
  | 23 => Some ES_EVENT_TYPE_NOTIFY_UNMOUNT
  | 24 => Some ES_EVENT_TYPE_NOTIFY_IOKIT_OPEN
  | 25 => Some ES_EVENT_TYPE_NOTIFY_RENAME
  | 26 => Some ES_EVENT_TYPE_NOTIFY_SETATTRLIST
  | 27 => Some ES_EVENT_TYPE_NOTIFY_SETEXTATTR
  | 28 => Some ES_EVENT_TYPE_NOTIFY_SETFLAGS
  | 29 => Some ES_EVENT_TYPE_NOTIFY_SETMODE
  | 30 => Some ES_EVENT_TYPE_NOTIFY_SETOWNER
  | 31 => Some ES_EVENT_TYPE_NOTIFY_SIGNAL
  | 32 => Some ES_EVENT_TYPE_NOTIFY_UNLINK
  | 33 => Some ES_EVENT_TYPE_NOTIFY_WRITE
  | 34 => Some ES_EVENT_TYPE_AUTH_FILE_PROVIDER_MATERIALIZE
  | 35 => Some ES_EVENT_TYPE_NOTIFY_FILE_PROVIDER_MATERIALIZE
  | 36 => Some ES_EVENT_TYPE_AUTH_FILE_PROVIDER_UPDATE
  | 37 => Some ES_EVENT_TYPE_NOTIFY_FILE_PROVIDER_UPDATE
  | 38 => Some ES_EVENT_TYPE_AUTH_READLINK
  | 39 => Some ES_EVENT_TYPE_NOTIFY_READLINK
  | 40 => Some ES_EVENT_TYPE_AUTH_TRUNCATE
  | 41 => Some ES_EVENT_TYPE_NOTIFY_TRUNCATE
  | 42 => Some ES_EVENT_TYPE_AUTH_LINK
  | 43 => Some ES_EVENT_TYPE_NOTIFY_LOOKUP
  | 44 => Some ES_EVENT_TYPE_AUTH_CREATE
  | 45 => Some ES_EVENT_TYPE_AUTH_SETATTRLIST
  | 46 => Some ES_EVENT_TYPE_AUTH_SETEXTATTR
  | 47 => Some ES_EVENT_TYPE_AUTH_SETFLAGS
  | 48 => Some ES_EVENT_TYPE_AUTH_SETMODE
  | 49 => Some ES_EVENT_TYPE_AUTH_SETOWNER
  | 50 => Some ES_EVENT_TYPE_AUTH_CHDIR
  | 51 => Some ES_EVENT_TYPE_NOTIFY_CHDIR
  | 52 => Some ES_EVENT_TYPE_AUTH_GETATTRLIST
  | 53 => Some ES_EVENT_TYPE_NOTIFY_GETATTRLIST
  | 54 => Some ES_EVENT_TYPE_NOTIFY_STAT
  | 55 => Some ES_EVENT_TYPE_NOTIFY_ACCESS
  | 56 => Some ES_EVENT_TYPE_AUTH_CHROOT
  | 57 => Some ES_EVENT_TYPE_NOTIFY_CHROOT
  | 58 => Some ES_EVENT_TYPE_AUTH_UTIMES
  | 59 => Some ES_EVENT_TYPE_NOTIFY_UTIMES
  | 60 => Some ES_EVENT_TYPE_AUTH_CLONE
  | 61 => Some ES_EVENT_TYPE_NOTIFY_CLONE
  | 62 => Some ES_EVENT_TYPE_NOTIFY_FCNTL
  | 63 => Some ES_EVENT_TYPE_AUTH_GETEXTATTR
  | 64 => Some ES_EVENT_TYPE_NOTIFY_GETEXTATTR
  | 65 => Some ES_EVENT_TYPE_AUTH_LISTEXTATTR
  | 66 => Some ES_EVENT_TYPE_NOTIFY_LISTEXTATTR
  | 67 => Some ES_EVENT_TYPE_AUTH_READDIR
  | 68 => Some ES_EVENT_TYPE_NOTIFY_READDIR
  | 69 => Some ES_EVENT_TYPE_AUTH_DELETEEXTATTR
  | 70 => Some ES_EVENT_TYPE_NOTIFY_DELETEEXTATTR
  | 71 => Some ES_EVENT_TYPE_AUTH_FSGETPATH
  | 72 => Some ES_EVENT_TYPE_NOTIFY_FSGETPATH
  | 73 => Some ES_EVENT_TYPE_NOTIFY_DUP
  | 74 => Some ES_EVENT_TYPE_AUTH_SETTIME
  | 75 => Some ES_EVENT_TYPE_NOTIFY_SETTIME
  | 76 => Some ES_EVENT_TYPE_NOTIFY_UIPC_BIND
  | 77 => Some ES_EVENT_TYPE_AUTH_UIPC_BIND
  | 78 => Some ES_EVENT_TYPE_NOTIFY_UIPC_CONNECT
  | 79 => Some ES_EVENT_TYPE_AUTH_UIPC_CONNECT
  | 80 => Some ES_EVENT_TYPE_AUTH_EXCHANGEDATA
  | 81 => Some ES_EVENT_TYPE_AUTH_SETACL
  | 82 => Some ES_EVENT_TYPE_NOTIFY_SETACL
  | 83 => Some ES_EVENT_TYPE_NOTIFY_PTY_GRANT
  | 84 => Some ES_EVENT_TYPE_NOTIFY_PTY_CLOSE
  | 85 => Some ES_EVENT_TYPE_AUTH_PROC_CHECK
  | 86 => Some ES_EVENT_TYPE_NOTIFY_PROC_CHECK
  | 87 => Some ES_EVENT_TYPE_AUTH_GET_TASK
  | 88 => Some ES_EVENT_TYPE_LAST
  | _ => None
  end.

#[global] Instance es_event_type_eq_dec : EqDecision es_event_type_t.
Proof. solve_decision. Defined.

(** [typedef struct { unsigned int val[8]; } audit_token_t;] *)
Record audit_token_t : Set := { val : list Z }.

(** ** Constants of IOEvent.hpp *)

Definition SRC_PATH : Z := 0.
Definition DST_PATH : Z := 1.
Definition PID_MAX : Z := 99999.
(** [USHRT_MAX] of <limits.h>: the largest [unsigned short]. *)
Definition USHRT_MAX : Z := 65535.
(** [INT_MAX] of <limits.h>: the largest [int]. *)
Definition INT_MAX : Z := 2147483647.

(** ** [std::to_string] on integers: the decimal representation, with a
    leading minus sign for negative values. *)
Definition to_string (z : Z) : string := NilZero.string_of_int (Z.to_int z).

(** [std::string::length], as a [size_t]. *)
Definition str_length (s : string) : Z := Z.of_nat (String.length s).

(** [std::string::empty]. *)
Definition str_empty (s : string) : bool :=
  match s with
  | EmptyString => true
  | String _ _ => false
  end.

(** Unsigned 64-bit [size_t] arithmetic wraps around. *)
Definition size_t (z : Z) : Z := z mod 2 ^ 64.

(** ** [struct IOEvent]

    [oppid_] and [auditToken_] have no default member initialiser: until
    a constructor assigns them their value is indeterminate, which is
    [None] here.  The other fields are assigned by every constructor
    modelled below. *)
Record IOEvent : Type := {
  pid_ : Z;
  cpid_ : Z;
  ppid_ : Z;
  eventType_ : es_event_type_t;
  mode_ : Z;
  modified_ : bool;
  executable_ : string;
  src_path_ : string;
  dst_path_ : string;
  oppid_ : option Z;
  auditToken_ : option audit_token_t
}.

Definition GetPid (e : IOEvent) : Z := pid_ e.
Definition GetParentPid (e : IOEvent) : Z := ppid_ e.
Definition GetChildPid (e : IOEvent) : Z := cpid_ e.
Definition GetOriginalParentPid (e : IOEvent) : option Z := oppid_ e.
Definition GetExecutablePath (e : IOEvent) : string := executable_ e.
Definition GetProcessAuditToken (e : IOEvent) : option audit_token_t := auditToken_ e.
Definition GetEventType (e : IOEvent) : es_event_type_t := eventType_ e.
Definition GetSrcPath (e : IOEvent) : string := src_path_ e.
Definition GetDstPath (e : IOEvent) : string := dst_path_ e.

Definition GetEventPath (e : IOEvent) (index : Z) : string :=
  if index =? SRC_PATH then src_path_ e else dst_path_ e.

Definition SetEventPath (e : IOEvent) (value : string) (index : Z) : IOEvent :=
  if index =? SRC_PATH then
    {| pid_ := pid_ e; cpid_ := cpid_ e; ppid_ := ppid_ e;
       eventType_ := eventType_ e; mode_ := mode_ e; modified_ := modified_ e;
       executable_ := executable_ e; src_path_ := value; dst_path_ := dst_path_ e;
       oppid_ := oppid_ e; auditToken_ := auditToken_ e |}
  else
    {| pid_ := pid_ e; cpid_ := cpid_ e; ppid_ := ppid_ e;
       eventType_ := eventType_ e; mode_ := mode_ e; modified_ := modified_ e;
       executable_ := executable_ e; src_path_ := src_path_ e; dst_path_ := value;
       oppid_ := oppid_ e; auditToken_ := auditToken_ e |}.

Definition GetMode (e : IOEvent) : Z := mode_ e.
Definition FSEntryModified (e : IOEvent) : bool := modified_ e.
Definition EventPathExists (e : IOEvent) : bool := negb (mode_ e =? 0).

(** [max_size]: [PATH_MAX] comes from <limits.h> and is a parameter here.
    The products with [length()] (here [str_length]) and the sums are [size_t] arithmetic;
    [3 * PATH_MAX] is an [int] product converted to [size_t]. *)
Definition max_size (PATH_MAX : Z) : Z :=
  size_t (size_t (size_t (size_t (size_t (3 * str_length (to_string PID_MAX)) +
                                  size_t (2 * str_length (to_string USHRT_MAX))) +
                          str_length (to_string (Z.b2z true))) +
                  size_t (3 * PATH_MAX)) +
          9).

(** ** The process state the wrappers run in *)

(** [PathCacheEntry(fildes)]: the payload of a tracked path. *)
Record PathCacheEntry : Set := { entry_fildes : Z }.

(** One call of [send_to_sandbox]: the event, the type and the optional
    trailing boolean arguments as they were passed. *)
Record Report : Type := {
  report_event : IOEvent;
  report_type : es_event_type_t;
  report_flags : list bool
}.

(** The result of [stat(2)]: [0] with the mode of the entry, or a failure
    that leaves an error number in [errno]. *)
Inductive stat_result : Set :=
  | StatOk (st_mode : Z)
  | StatErr (err : Z).

(** What the wrappers call but Detours.hpp and IOEvent.hpp do not define:
    the identity of the running process, [get_executable_path], [stat]
    and the effect of [send_to_sandbox] on [errno] (every external call
    may leave any value there). *)
Record Env : Type := {
  getpid : Z;
  getppid : Z;
  get_executable_path : Z -> string;
  get_executable_path_errno : Z -> Z -> Z;
  stat : string -> stat_result;
  send_to_sandbox_errno : Report -> Z -> Z
}.

(** Modelled from the spec: the type of [trackedPaths_] is not declared in
    these headers; the spec (4.4) describes a process-lifetime map keyed by
    the resolved path with [has] and an idempotent [record] and no
    eviction, which is a finite map from paths to [PathCacheEntry]. *)
Record World : Type := {
  errno : Z;
  trackedPaths_ : gmap string PathCacheEntry;
  sandbox_log : list Report;
  stat_log : list string
}.

(** Modelled from the spec: [trackedPaths_->get(path)], [nullptr] is [None]. *)
Definition trackedPaths_get (path : string) (w : World) : option PathCacheEntry :=
  trackedPaths_ w !! path.

(** Modelled from the spec: [trackedPaths_->insert(path, entry)]; inserting
    a key that is already present is a no-op. *)
Definition trackedPaths_insert (path : string) (entry : PathCacheEntry)
    (w : World) : World :=
  {| errno := errno w;
     trackedPaths_ :=
       match trackedPaths_ w !! path with
       | Some _ => trackedPaths_ w
       | None => <[path := entry]> (trackedPaths_ w)
       end;
     sandbox_log := sandbox_log w;
     stat_log := stat_log w |}.

(** ** A state and failure monad for the wrappers *)

Inductive Failure : Set :=
  | AssertionFailed
  | UnhandledEvent (type : es_event_type_t)
  | MalformedRecord.

Inductive Res (A : Type) : Type :=
  | Ok (a : A)
  | Fail (f : Failure).
Arguments Ok {A} a.
Arguments Fail {A} f.

Definition M (A : Type) : Type := World -> Res (A * World).

#[global] Instance M_ret : MRet M := fun A (a : A) (w : World) => Ok (a, w).

#[global] Instance M_bind : MBind M :=
  fun A B (f : A -> M B) (m : M A) (w : World) =>
    match m w with
    | Ok (a, w') => f a w'
    | Fail e => Fail e
    end.

Definition fail {A : Type} (e : Failure) : M A := fun _ => Fail e.

(** [assert(c)] of <assert.h>: aborts when [c] is false. *)
Definition assert (c : bool) : M unit :=
  if c then mret tt else fail AssertionFailed.

Definition get_errno : M Z := fun w => Ok (errno w, w).

Definition set_errno (e : Z) : M unit := fun w =>
  Ok (tt, {| errno := e; trackedPaths_ := trackedPaths_ w;
             sandbox_log := sandbox_log w; stat_log := stat_log w |}).

Definition get_tracked (path : string) : M (option PathCacheEntry) :=
  fun w => Ok (trackedPaths_get path w, w).

Definition insert_tracked (path : string) (entry : PathCacheEntry) : M unit :=
  fun w => Ok (tt, trackedPaths_insert path entry w).

(** [stat(path, &s)]: the query is logged; a failure sets [errno]. *)
Definition call_stat (env : Env) (path : string) : M stat_result := fun w =>
  Ok (stat env path,
      {| errno := match stat env path with
                  | StatOk _ => errno w
                  | StatErr err => err
                  end;
         trackedPaths_ := trackedPaths_ w;
         sandbox_log := sandbox_log w;
         stat_log := stat_log w ++ [path] |}).

Definition call_get_executable_path (env : Env) (pid : Z) : M string := fun w =>
  Ok (get_executable_path env pid,
      {| errno := get_executable_path_errno env pid (errno w);
         trackedPaths_ := trackedPaths_ w;
         sandbox_log := sandbox_log w;
         stat_log := stat_log w |}).

(** [send_to_sandbox(event, type, flags...)]: the call is logged, and
    [errno] afterwards is whatever the transport left there. *)
Definition send_to_sandbox (env : Env) (event : IOEvent) (type : es_event_type_t)
    (flags : list bool) : M unit := fun w =>
  let r := {| report_event := event; report_type := type; report_flags := flags |} in
  Ok (tt,
      {| errno := send_to_sandbox_errno env r (errno w);
         trackedPaths_ := trackedPaths_ w;
         sandbox_log := sandbox_log w ++ [r];
         stat_log := stat_log w |}).

(** ** The constructors of [IOEvent] (IOEvent.hpp) *)

(** A C string argument: [src != nullptr ? std::string(src) : std::string("")]. *)
Definition string_of_c_str (p : option string) : string :=
  match p with
  | Some s => s
  | None => ""
  end.

(** [IOEvent(pid, cpid, ppid, type, const char *src, const char *dst, exec,
    bool get_mode = true, bool modified = false)]. *)
Definition IOEvent_get_mode (env : Env) (pid cpid ppid : Z) (type : es_event_type_t)
    (src dst : option string) (exec : string) (get_mode modified : bool) : M IOEvent :=
  assert (negb (str_empty exec)) ;;
  let src_path := string_of_c_str src in
  let dst_path := string_of_c_str dst in
  mode ← (if get_mode
          then s ← call_stat env src_path;
               mret (match s with StatOk st_mode => st_mode | StatErr _ => 0 end)
          else mret 0);
  mret {| pid_ := pid; cpid_ := cpid; ppid_ := ppid; eventType_ := type;
          mode_ := mode; modified_ := modified;
          executable_ := exec; src_path_ := src_path; dst_path_ := dst_path;
          oppid_ := Some ppid; auditToken_ := None |}.

(** [IOEvent(pid, cpid, ppid, type, std::string src, std::string dst, exec,
    mode_t mode, bool modified = false)]: a member initialiser list and an
    empty body. *)
Definition IOEvent_mode (pid cpid ppid : Z) (type : es_event_type_t)
    (src dst exec : string) (mode : Z) (modified : bool) : M IOEvent :=
  mret {| pid_ := pid; cpid_ := cpid; ppid_ := ppid; eventType_ := type;
          mode_ := mode; modified_ := modified;
          executable_ := exec; src_path_ := src; dst_path_ := dst;
          oppid_ := Some ppid; auditToken_ := None |}.

(** [IOEvent(type, src, exec, mode, bool modified = false, std::string dest = "")]:
    delegates to the constructor above. *)
Definition IOEvent_self (env : Env) (type : es_event_type_t) (src exec : string)
    (mode : Z) (modified : bool) (dest : string) : M IOEvent :=
  IOEvent_mode (getpid env) 0 (getppid env) type src dest exec mode modified.

(** ** The event constructors of the interposed wrappers (Detours.hpp)

    Each macro is a function of its parameters and of the variables of the
    enclosing wrapper it mentions ([result], [success], [fildes], [s]).
    The macros that pass C strings and a flag (or no eighth argument) call
    the constructor with [const char*] paths and [get_mode]; the stat macro
    passes a [mode_t], which selects the [std::string] constructor. *)

(** The comparison operator pasted into [result cmp 0]. *)
Inductive cmp_op : Set := op_eq | op_ne | op_lt | op_le | op_gt | op_ge.

Definition eval_cmp (cmp : cmp_op) (a b : Z) : bool :=
  match cmp with
  | op_eq => a =? b
  | op_ne => negb (a =? b)
  | op_lt => a <? b
  | op_le => a <=? b
  | op_gt => a >? b
  | op_ge => a >=? b
  end.

Definition DEFAULT_EVENT_CONSTRUCTOR (env : Env) (type : es_event_type_t)
    (src dst : option string) (mode : bool) (result : Z) : M Z :=
  old_errno ← get_errno;
  exec ← call_get_executable_path env (getpid env);
  event ← IOEvent_get_mode env (getpid env) 0 (getppid env) type src dst exec mode false;
  send_to_sandbox env event type [] ;;
  set_errno old_errno ;;
  mret result.

Definition DEFAULT_EVENT_CONSTRUCTOR_NO_RESOLVE (env : Env) (type : es_event_type_t)
    (src dst : option string) (mode : bool) (report : bool) (result : Z) : M Z :=
  old_errno ← get_errno;
  (if report then
     exec ← call_get_executable_path env (getpid env);
     event ← IOEvent_get_mode env (getpid env) 0 (getppid env) type src dst exec true false;
     send_to_sandbox env event type [false; false]
   else mret tt) ;;
  set_errno old_errno ;;
  mret result.

Definition EXEC_EVENT_CONSTRUCTOR (env : Env) (path : option string) : M unit :=
  exec ← call_get_executable_path env (getpid env);
  event ← IOEvent_get_mode env (getpid env) 0 (getppid env)
            ES_EVENT_TYPE_NOTIFY_EXEC path (Some "") exec false false;
  send_to_sandbox env event ES_EVENT_TYPE_NOTIFY_EXEC [true].

Definition EXIT_EVENT_CONSTRUCTOR (env : Env) : M unit :=
  exec ← call_get_executable_path env (getpid env);
  event ← IOEvent_get_mode env (getpid env) 0 (getppid env)
            ES_EVENT_TYPE_NOTIFY_EXIT (Some "") (Some "") exec false false;
  send_to_sandbox env event ES_EVENT_TYPE_NOTIFY_EXIT [].

(** [child_pid] is the value the out-parameter points to. *)
Definition FORK_EVENT_CONSTRUCTOR (env : Env) (result child_pid pid ppid : Z)
    (cmp : cmp_op) : M Z :=
  old_errno ← get_errno;
  (if eval_cmp cmp result 0 then
     fullpath ← call_get_executable_path env child_pid;
     event ← IOEvent_get_mode env pid child_pid ppid
               ES_EVENT_TYPE_NOTIFY_FORK (Some "") (Some "") fullpath false false;
     send_to_sandbox env event ES_EVENT_TYPE_NOTIFY_FORK []
   else mret tt) ;;
  set_errno old_errno ;;
  mret result.

(** [st_mode] is [s->st_mode] of the wrapper's [struct stat *s]; with a
    [mode_t] as eighth argument the call resolves to the explicit-mode
    constructor. *)
Definition STAT_EVENT_CONSTRUCTOR (env : Env) (type : es_event_type_t)
    (src : string) (st_mode : Z) (result : Z) : M Z :=
  old_errno ← get_errno;
  exec ← call_get_executable_path env (getpid env);
  event ← IOEvent_mode (getpid env) 0 (getppid env) type src "" exec st_mode false;
  send_to_sandbox env event type [] ;;
  set_errno old_errno ;;
  mret result.

(** Seven arguments: the constructor with the defaults [get_mode = true]
    and [modified = false]. *)
Definition WRITE_EVENT_CONSTRUCTOR (env : Env) (path : string) (dst : option string)
    (success fildes result : Z) : M Z :=
  old_errno ← get_errno;
  (if success =? 0 then
     entry_found ← get_tracked path;
     let reported := bool_decide (entry_found ≠ None) in
     if negb reported then
       let entry := {| entry_fildes := fildes |} in
       insert_tracked path entry ;;
       exec ← call_get_executable_path env (getpid env);
       event ← IOEvent_get_mode env (getpid env) 0 (getppid env)
                 ES_EVENT_TYPE_NOTIFY_WRITE (Some path) dst exec true false;
       send_to_sandbox env event ES_EVENT_TYPE_NOTIFY_WRITE []
     else mret tt
   else mret tt) ;;
  set_errno old_errno ;;
  mret result.

(** ** The kernel-message macro

    IOEvent.hpp declares [IOEvent(const es_message_t *msg)] and defines the
    macro its cases are written with; the body of the constructor is in
    the implementation file. *)

(** An [es_file_t] of a message: the path and the [stat] of the file. *)
Record es_file_t : Set := { file_path : string; file_st_mode : Z }.

Section KernelMessages.

(** The path extractor [PathExtractor(file).Path()] is defined outside
    these headers. *)
Variable PathExtractor_Path : es_file_t -> string.

(** [ES_EVENT_CONSTRUCTOR(type, dir, file, mode, do_break)] applied to the
    record under construction; [file] is the member [event.file] the
    macro selects, the second component tells whether the macro ends in
    [break]. *)
Definition ES_EVENT_CONSTRUCTOR (file : es_file_t) (mode do_break : bool)
    (e : IOEvent) : IOEvent * bool :=
  ({| pid_ := pid_ e; cpid_ := cpid_ e; ppid_ := ppid_ e;
      eventType_ := eventType_ e;
      mode_ := if mode then file_st_mode file else mode_ e;
      modified_ := modified_ e;
      executable_ := executable_ e;
      src_path_ := PathExtractor_Path file;
      dst_path_ := dst_path_ e;
      oppid_ := oppid_ e; auditToken_ := auditToken_ e |},
   do_break).

End KernelMessages.

(** ** The wire codec

    IOEvent.hpp declares [operator<<] and [operator>>] as friends of
    [IOEvent] and accounts for their output in [max_size]; their bodies
    are in the implementation file. *)

(** Modelled from the spec: the delimiter byte.  Spec 4.2 has the codec
    "enforce the invariant that payload bytes never collide with the
    delimiter, e.g. by using a delimiter outside the valid path character
    set": the NUL byte is the one byte no path contains. *)
Definition wire_delimiter : ascii := Ascii.zero.

(** [std::string::c_str] read as a C string, the way [GetExecutablePath]
    and [GetEventPath] hand the paths out: the bytes before the first
    NUL. *)
Fixpoint c_str (s : string) : string :=
  match s with
  | EmptyString => ""
  | String c rest => if Ascii.eqb c Ascii.zero then "" else String c (c_str rest)
  end.

(** A string that is a C string: it holds no NUL byte. *)
Definition c_string (s : string) : Prop := c_str s = s.

(** Modelled from the spec: [operator<<] is not defined in IOEvent.hpp.
    Spec 4.2: "a delimited, self-describing byte sequence"; integers "in
    a fixed, documented textual ... form whose maximum width is exactly
    what max_size accounts for", paths as "delimiter-terminated strings
    that cannot alias the delimiter byte value".  [max_size] counts three
    pids, type and mode, the modified flag, the three paths and nine
    delimiters: every field is followed by the delimiter, the integers
    written in decimal and the paths as C strings, so that no byte of a
    field is the delimiter. *)
Definition put_field (field : string) (rest : string) : string :=
  field +:+ String wire_delimiter rest.

Definition operator_lshift (os : string) (e : IOEvent) : string :=
  os +:+
  put_field (to_string (pid_ e))
 (put_field (to_string (cpid_ e))
 (put_field (to_string (ppid_ e))
 (put_field (to_string (es_event_type_value (eventType_ e)))
 (put_field (to_string (mode_ e))
 (put_field (to_string (Z.b2z (modified_ e)))
 (put_field (c_str (executable_ e))
 (put_field (c_str (src_path_ e))
 (put_field (c_str (dst_path_ e)) "")))))))).

(** Modelled from the spec: reads the bytes up to the next delimiter;
    [None] when the input ends before one ("truncated mid-field"). *)
Fixpoint get_field (input : string) : option (string * string) :=
  match input with
  | EmptyString => None
  | String c rest =>
      if Ascii.eqb c wire_delimiter then Some ("", rest)
      else '(field, rest') ← get_field rest; Some (String c field, rest')
  end.

(** Modelled from the spec: a decimal integer field. *)
Definition parse_int (field : string) : option Z :=
  Z.of_int <$> NilZero.int_of_string field.

Definition get_int (input : string) : option (Z * string) :=
  '(field, rest) ← get_field input; z ← parse_int field; Some (z, rest).

Definition bool_of_int (z : Z) : option bool :=
  match z with
  | 0 => Some false
  | 1 => Some true
  | _ => None
  end.

(** Modelled from the spec: [operator>>] is not defined in IOEvent.hpp.
    It reads the nine fields in the order they were written into a
    default-constructed [IOEvent] (whose [oppid_] and [auditToken_] stay
    unassigned) and returns the rest of the stream; spec 4.2: a sequence
    "not produced by this codec, or one truncated mid-field, fails with a
    distinct malformed record error". *)
Definition read_IOEvent (input : string) : option (IOEvent * string) :=
  '(pid, input) ← get_int input;
  '(cpid, input) ← get_int input;
  '(ppid, input) ← get_int input;
  '(type_value, input) ← get_int input;
  type ← es_event_type_of_value type_value;
  '(mode, input) ← get_int input;
  '(modified_value, input) ← get_int input;
  modified ← bool_of_int modified_value;
  '(exec, input) ← get_field input;
  '(src, input) ← get_field input;
  '(dst, input) ← get_field input;
  Some ({| pid_ := pid; cpid_ := cpid; ppid_ := ppid; eventType_ := type;
           mode_ := mode; modified_ := modified;
           executable_ := exec; src_path_ := src; dst_path_ := dst;
           oppid_ := None; auditToken_ := None |}, input).

Definition operator_rshift (input : string) : Res (IOEvent * string) :=
  match read_IOEvent input with
  | Some r => Ok r
  | None => Fail MalformedRecord
  end.

(** A string without the delimiter byte. *)
Fixpoint delimiter_free (s : string) : bool :=
  match s with
  | EmptyString => true
  | String c rest => negb (Ascii.eqb c wire_delimiter) && delimiter_free rest
  end.

(** The fields the wire format carries. *)
Definition same_wire_fields (e e' : IOEvent) : Prop :=
  pid_ e' = pid_ e /\ cpid_ e' = cpid_ e /\ ppid_ e' = ppid_ e /\
  eventType_ e' = eventType_ e /\ mode_ e' = mode_ e /\
  modified_ e' = modified_ e /\ executable_ e' = executable_ e /\
  src_path_ e' = src_path_ e /\ dst_path_ e' = dst_path_ e.

(** ** The interposed wrappers

    The wrappers the event constructors are expanded in are defined in the
    implementation file.  The original call is a parameter: any
    computation on the process state that returns a result. *)




(** ** Predicates and sample data used to state the properties *)

(** The security-context fields are "undefined/zeroed": each is either
    unassigned or holds zeroes. *)
Definition zero_audit_token : audit_token_t := {| val := [0; 0; 0; 0; 0; 0; 0; 0] |}.

Definition security_context_unset (e : IOEvent) : Prop :=
  (oppid_ e = None \/ oppid_ e = Some 0) /\
  (auditToken_ e = None \/ auditToken_ e = Some zero_audit_token).

(** A process that has tracked no path and reported nothing yet. *)
Definition initial_world : World :=
  {| errno := 0; trackedPaths_ := ∅; sandbox_log := []; stat_log := [] |}.

(** A sample process: pid 100 running [/bin/sh] under pid 1, child 200
    running [/bin/ls]; only [/tmp/a] exists; a report that cannot be
    delivered leaves [EPIPE] (32) in [errno]. *)
Definition sample_env : Env :=
  {| getpid := 100;
     getppid := 1;
     get_executable_path := fun pid => if pid =? 200 then "/bin/ls" else "/bin/sh";
     get_executable_path_errno := fun _ e => e;
     stat := fun path => if String.eqb path "/tmp/a" then StatOk 33188 else StatErr 2;
     send_to_sandbox_errno := fun _ _ => 32 |}.

(** The state after the first successful write to an untracked path. *)
Definition world_after_write (env : Env) (path : string) (dst : option string)
    (fildes : Z) (w : World) : World :=
  {| errno := errno w;
     trackedPaths_ := <[path := {| entry_fildes := fildes |}]> (trackedPaths_ w);
     sandbox_log :=
       sandbox_log w ++
       [{| report_event :=
             {| pid_ := getpid env; cpid_ := 0; ppid_ := getppid env;
                eventType_ := ES_EVENT_TYPE_NOTIFY_WRITE;
                mode_ := match stat env path with
                         | StatOk st_mode => st_mode
                         | StatErr _ => 0
                         end;
                modified_ := false;
                executable_ := get_executable_path env (getpid env);
                src_path_ := path; dst_path_ := string_of_c_str dst;
                oppid_ := Some (getppid env); auditToken_ := None |};
           report_type := ES_EVENT_TYPE_NOTIFY_WRITE;
           report_flags := [] |}];
     stat_log := stat_log w ++ [path] |}.



(** A write of [/tmp/a] by pid 100. *)
Definition sample_write_event : IOEvent :=
  {| pid_ := 100; cpid_ := 0; ppid_ := 1;
     eventType_ := ES_EVENT_TYPE_NOTIFY_WRITE; mode_ := 33188; modified_ := true;
     executable_ := "/bin/sh"; src_path_ := "/tmp/a"; dst_path_ := "";
     oppid_ := Some 1; auditToken_ := None |}.

(** ** Runs of a process and bounded checks *)

(** [P] holds of the [fuel] integers from [z] on. *)
Fixpoint all_below (P : Z -> bool) (fuel : nat) (z : Z) : bool :=
  match fuel with
  | O => true
  | S fuel' => P z && all_below P fuel' (z + 1)
  end.

(** The decimal representation of [z] is at most [width] bytes long. *)
Definition fits_width (width : Z) (z : Z) : bool :=
  str_length (to_string z) <=? width.

(** One interposed operation: the event constructor its wrapper ends in,
    with the arguments and the wrapper variables it is expanded with. *)
Inductive wrapper_call : Type :=
  | do_default (type : es_event_type_t) (src dst : option string) (mode : bool)
      (result : Z)
  | do_no_resolve (type : es_event_type_t) (src dst : option string) (mode : bool)
      (report : bool) (result : Z)
  | do_exec (path : option string)
  | do_exit
  | do_fork (result child_pid pid ppid : Z) (cmp : cmp_op)
  | do_stat (type : es_event_type_t) (src : string) (st_mode : Z) (result : Z)
  | do_write (path : string) (dst : option string) (success fildes result : Z).

Definition run_call (env : Env) (c : wrapper_call) : M unit :=
  match c with
  | do_default type src dst mode result =>
      DEFAULT_EVENT_CONSTRUCTOR env type src dst mode result ;; mret tt
  | do_no_resolve type src dst mode report result =>
      DEFAULT_EVENT_CONSTRUCTOR_NO_RESOLVE env type src dst mode report result ;; mret tt
  | do_exec path => EXEC_EVENT_CONSTRUCTOR env path
  | do_exit => EXIT_EVENT_CONSTRUCTOR env
  | do_fork result child_pid pid ppid cmp =>
      FORK_EVENT_CONSTRUCTOR env result child_pid pid ppid cmp ;; mret tt
  | do_stat type src st_mode result =>
      STAT_EVENT_CONSTRUCTOR env type src st_mode result ;; mret tt
  | do_write path dst success fildes result =>
      WRITE_EVENT_CONSTRUCTOR env path dst success fildes result ;; mret tt
  end.

(** The operations of a process, one after the other. *)
Fixpoint run_calls (env : Env) (cs : list wrapper_call) : M unit :=
  match cs with
  | [] => mret tt
  | c :: cs' => run_call env c ;; run_calls env cs'
  end.

(** The constructors that end in [errno = old_errno]. *)
Definition saves_errno (c : wrapper_call) : bool :=
  match c with
  | do_exec _ | do_exit => false
  | _ => true
  end.

(** Every tracked path has a write event for it among the reports. *)
Definition tracked_reported (w : World) : Prop :=
  forall path entry,
    trackedPaths_ w !! path = Some entry ->
    exists r, (r ∈ sandbox_log w) /\
              (report_type r = ES_EVENT_TYPE_NOTIFY_WRITE) /\
              (GetSrcPath (report_event r) = path).

(** A report whose type argument is the type of its event, built by an
    interposition constructor. *)
Definition interposed_report (r : Report) : Prop :=
  report_type r = GetEventType (report_event r) /\
  FSEntryModified (report_event r) = false /\
  GetOriginalParentPid (report_event r) = Some (GetParentPid (report_event r)) /\
  GetProcessAuditToken (report_event r) = None.

(** The mode a record gets: the one [stat] gives for [path] when the
    constructor is asked to query it and [stat] succeeds, [0] otherwise. *)
Definition queried_mode (env : Env) (get_mode : bool) (path : string) : Z :=
  if get_mode
  then match stat env path with
       | StatOk st_mode => st_mode
       | StatErr _ => 0
       end
  else 0.

(** The record an interposition constructor builds. *)
Definition interposed_event (pid cpid ppid : Z) (type : es_event_type_t)
    (src dst exec : string) (mode : Z) : IOEvent :=
  {| pid_ := pid; cpid_ := cpid; ppid_ := ppid; eventType_ := type;
     mode_ := mode; modified_ := false;
     executable_ := exec; src_path_ := src; dst_path_ := dst;
     oppid_ := Some ppid; auditToken_ := None |}.

(** The state after one more report and the [stat] calls [queries], with
    [errno] and the tracked paths as they were. *)
Definition world_after_report (w : World) (r : Report) (queries : list string) : World :=
  {| errno := errno w;
     trackedPaths_ := trackedPaths_ w;
     sandbox_log := sandbox_log w ++ [r];
     stat_log := stat_log w ++ queries |}.

(** A sample run: two writes to [/tmp/a] through two descriptors, a failed
    write to [/tmp/b], a fork of child 200, a stat and an open. *)
Definition sample_run : list wrapper_call :=
  [do_write "/tmp/a" None 0 3 5;
   do_write "/tmp/a" None 0 4 7;
   do_write "/tmp/b" None (-1) 5 (-1);
   do_fork 200 200 100 1 op_gt;
   do_stat ES_EVENT_TYPE_NOTIFY_STAT "/tmp/a" 33188 0;
   do_default ES_EVENT_TYPE_NOTIFY_OPEN (Some "/tmp/missing") None true (-1)].

(** * Properties *)

(** ** Running the monad *)

Ltac run :=
  repeat (unfold mbind, M_bind, mret, M_ret, assert, fail, get_errno, set_errno,
            get_tracked, insert_tracked, call_stat, call_get_executable_path,
            send_to_sandbox; simpl).

Lemma world_eta (w : World) :
  {| errno := errno w; trackedPaths_ := trackedPaths_ w;
     sandbox_log := sandbox_log w; stat_log := stat_log w |} = w.
Proof. by destruct w. Qed.

Lemma str_empty_true (s : string) : str_empty s = true <-> s = "".
Proof. destruct s; simpl; split; congruence. Qed.

Lemma str_empty_false (s : string) : str_empty s = false <-> s <> "".
Proof. destruct s; simpl; split; congruence. Qed.

(** The mode-querying constructor aborts on an empty executable path. *)
Lemma IOEvent_get_mode_empty_exec env pid cpid ppid type src dst get_mode modified w :
  IOEvent_get_mode env pid cpid ppid type src dst "" get_mode modified w
  = Fail AssertionFailed.
Proof. reflexivity. Qed.

(** Without [get_mode] it builds the record and touches nothing. *)
Lemma IOEvent_get_mode_no_query env pid cpid ppid type src dst exec modified w :
  str_empty exec = false ->
  IOEvent_get_mode env pid cpid ppid type src dst exec false modified w
  = Ok ({| pid_ := pid; cpid_ := cpid; ppid_ := ppid; eventType_ := type;
           mode_ := 0; modified_ := modified; executable_ := exec;
           src_path_ := string_of_c_str src; dst_path_ := string_of_c_str dst;
           oppid_ := Some ppid; auditToken_ := None |}, w).
Proof. intros Hexec. unfold IOEvent_get_mode. rewrite Hexec. reflexivity. Qed.

(** With [get_mode] it runs [stat] on the source path. *)
Lemma IOEvent_get_mode_query env pid cpid ppid type src dst exec modified w :
  str_empty exec = false ->
  IOEvent_get_mode env pid cpid ppid type src dst exec true modified w
  = Ok ({| pid_ := pid; cpid_ := cpid; ppid_ := ppid; eventType_ := type;
           mode_ := match stat env (string_of_c_str src) with
                    | StatOk st_mode => st_mode
                    | StatErr _ => 0
                    end;
           modified_ := modified; executable_ := exec;
           src_path_ := string_of_c_str src; dst_path_ := string_of_c_str dst;
           oppid_ := Some ppid; auditToken_ := None |},
        {| errno := match stat env (string_of_c_str src) with
                    | StatOk _ => errno w
                    | StatErr err => err
                    end;
           trackedPaths_ := trackedPaths_ w;
           sandbox_log := sandbox_log w;
           stat_log := stat_log w ++ [string_of_c_str src] |}).
Proof. intros Hexec. unfold IOEvent_get_mode. rewrite Hexec. reflexivity. Qed.

(** Whatever the flag, a non-empty executable path gives a record with the
    arguments in its fields, and neither the tracked paths nor the reports
    change. *)
Lemma IOEvent_get_mode_ok env pid cpid ppid type src dst exec get_mode modified w :
  str_empty exec = false ->
  exists e w',
    IOEvent_get_mode env pid cpid ppid type src dst exec get_mode modified w = Ok (e, w') /\
    pid_ e = pid /\ cpid_ e = cpid /\ ppid_ e = ppid /\ eventType_ e = type /\
    modified_ e = modified /\ executable_ e = exec /\
    src_path_ e = string_of_c_str src /\ dst_path_ e = string_of_c_str dst /\
    oppid_ e = Some ppid /\ auditToken_ e = None /\
    (get_mode = false -> mode_ e = 0 /\ w' = w) /\
    trackedPaths_ w' = trackedPaths_ w /\ sandbox_log w' = sandbox_log w.
Proof.
  intros Hexec. destruct get_mode.
  - eexists _, _. split; [by apply IOEvent_get_mode_query|].
    simpl. repeat split; congruence.
  - eexists _, _. split; [by apply IOEvent_get_mode_no_query|].
    simpl. repeat split; reflexivity.
Qed.

(** ** The constructors *)

(** C4.  The executable path is checked by the mode-querying constructor
    only: it aborts on an empty path for every input, while the
    explicit-mode constructor, called with an empty executable path, returns
    a record whose executable path is empty. *)
Theorem IOEvent_mode_accepts_empty_executable :
  (forall env pid cpid ppid type src dst get_mode modified w,
      IOEvent_get_mode env pid cpid ppid type src dst "" get_mode modified w
      = Fail AssertionFailed) /\
  (exists e,
      IOEvent_mode 100 0 1 ES_EVENT_TYPE_NOTIFY_STAT "/tmp/a" "" "" 33188 false
        initial_world = Ok (e, initial_world) /\
      GetExecutablePath e = "" /\ GetSrcPath e = "/tmp/a" /\ GetMode e = 33188).
Proof.
  split.
  - intros. apply IOEvent_get_mode_empty_exec.
  - eexists. split; [reflexivity|]. by repeat split.
Qed.

(** C6.  With the mode flag set and a non-empty executable path the
    constructor returns a record after exactly one [stat] of the source
    path; the mode is the one [stat] reported, and [0] when [stat] failed;
    and [EventPathExists] is false exactly when the stored mode is [0]. *)
Theorem IOEvent_get_mode_stat env pid cpid ppid type src dst exec modified w :
  str_empty exec = false ->
  exists e w',
    IOEvent_get_mode env pid cpid ppid type src dst exec true modified w = Ok (e, w') /\
    stat_log w' = (stat_log w ++ [string_of_c_str src])%list /\
    (forall err, stat env (string_of_c_str src) = StatErr err ->
                 GetMode e = 0 /\ EventPathExists e = false) /\
    (forall st_mode, stat env (string_of_c_str src) = StatOk st_mode ->
                     GetMode e = st_mode) /\
    (forall e' : IOEvent, EventPathExists e' = false <-> GetMode e' = 0).
Proof.
  intros Hexec. eexists _, _.
  split; [by apply IOEvent_get_mode_query|].
  unfold GetMode, EventPathExists. simpl.
  split; [reflexivity|].
  split; [by intros err ->|].
  split; [by intros st_mode ->|].
  intros e'. rewrite negb_false_iff. apply Z.eqb_eq.
Qed.

Lemma IOEvent_get_mode_stat_witness :
  exists e w',
    IOEvent_get_mode sample_env 100 0 1 ES_EVENT_TYPE_NOTIFY_OPEN (Some "/tmp/missing")
      None "/bin/sh" true false initial_world = Ok (e, w') /\
    stat_log w' = (stat_log initial_world ++ [string_of_c_str (Some "/tmp/missing")])%list /\
    (forall err, stat sample_env (string_of_c_str (Some "/tmp/missing")) = StatErr err ->
                 GetMode e = 0 /\ EventPathExists e = false) /\
    (forall st_mode, stat sample_env (string_of_c_str (Some "/tmp/missing")) = StatOk st_mode ->
                     GetMode e = st_mode) /\
    (forall e' : IOEvent, EventPathExists e' = false <-> GetMode e' = 0).
Proof.
  apply (IOEvent_get_mode_stat sample_env 100 0 1 ES_EVENT_TYPE_NOTIFY_OPEN
           (Some "/tmp/missing") None "/bin/sh" false initial_world).
  reflexivity.
Defined.

(** The claim of C7 fails on the explicit-mode constructor: with parent
    pid [1] the original parent pid of the record is [1], neither
    unassigned nor zero. *)
Lemma interposed_oppid_is_set :
  exists e,
    IOEvent_mode 100 0 1 ES_EVENT_TYPE_NOTIFY_STAT "/tmp/a" "" "/bin/sh" 33188 false
      initial_world = Ok (e, initial_world) /\
    ~ security_context_unset e.
Proof.
  eexists. split; [reflexivity|].
  unfold security_context_unset. simpl. intros [[H | H] _]; discriminate H.
Qed.

(** C7, amended.  Every record built by an interposition constructor has
    the parent pid it was given as its original parent pid, and its audit
    token is left unassigned. *)
Theorem interposed_security_context env pid cpid ppid type src dst exec
    get_mode mode modified w :
  str_empty exec = false ->
  (exists e w',
      IOEvent_get_mode env pid cpid ppid type src dst exec get_mode modified w
      = Ok (e, w') /\
      GetOriginalParentPid e = Some (GetParentPid e) /\ GetParentPid e = ppid /\
      GetProcessAuditToken e = None) /\
  (exists e,
      IOEvent_mode pid cpid ppid type (string_of_c_str src) (string_of_c_str dst)
        exec mode modified w = Ok (e, w) /\
      GetOriginalParentPid e = Some (GetParentPid e) /\ GetParentPid e = ppid /\
      GetProcessAuditToken e = None) /\
  (exists e,
      IOEvent_self env type (string_of_c_str src) exec mode modified
        (string_of_c_str dst) w = Ok (e, w) /\
      GetOriginalParentPid e = Some (GetParentPid e) /\ GetParentPid e = getppid env /\
      GetProcessAuditToken e = None).
Proof.
  intros Hexec. split; [|split].
  - destruct (IOEvent_get_mode_ok env pid cpid ppid type src dst exec get_mode
                modified w Hexec)
      as (e & w' & Hrun & _ & _ & Hppid & _ & _ & _ & _ & _ & Hoppid & Htoken & _).
    exists e, w'. unfold GetOriginalParentPid, GetParentPid, GetProcessAuditToken.
    rewrite Hppid. done.
  - eexists. split; [reflexivity|]. done.
  - eexists. split; [reflexivity|]. done.
Qed.

Lemma interposed_security_context_witness :
  (exists e w',
      IOEvent_get_mode sample_env 100 0 1 ES_EVENT_TYPE_NOTIFY_OPEN (Some "/tmp/a") None
        "/bin/sh" true false initial_world = Ok (e, w') /\
      GetOriginalParentPid e = Some (GetParentPid e) /\ GetParentPid e = 1 /\
      GetProcessAuditToken e = None) /\
  (exists e,
      IOEvent_mode 100 0 1 ES_EVENT_TYPE_NOTIFY_OPEN (string_of_c_str (Some "/tmp/a"))
        (string_of_c_str None) "/bin/sh" 33188 false initial_world
      = Ok (e, initial_world) /\
      GetOriginalParentPid e = Some (GetParentPid e) /\ GetParentPid e = 1 /\
      GetProcessAuditToken e = None) /\
  (exists e,
      IOEvent_self sample_env ES_EVENT_TYPE_NOTIFY_OPEN (string_of_c_str (Some "/tmp/a"))
        "/bin/sh" 33188 false (string_of_c_str None) initial_world
      = Ok (e, initial_world) /\
      GetOriginalParentPid e = Some (GetParentPid e) /\
      GetParentPid e = getppid sample_env /\
      GetProcessAuditToken e = None).
Proof.
  apply (interposed_security_context sample_env 100 0 1 ES_EVENT_TYPE_NOTIFY_OPEN
           (Some "/tmp/a") None "/bin/sh" true 33188 false initial_world).
  reflexivity.
Defined.

(** C8.  For a [PATH_MAX] whose triple is an [int], [max_size] is three
    times the five digits of [PID_MAX], twice the five digits of
    [USHRT_MAX], the one byte of [std::to_string(true)], three times
    [PATH_MAX] and nine delimiters: [3 * PATH_MAX + 35]. *)
Theorem max_size_formula (PATH_MAX : Z) :
  0 <= PATH_MAX -> 3 * PATH_MAX <= INT_MAX ->
  to_string PID_MAX = "99999" /\ str_length (to_string PID_MAX) = 5 /\
  to_string USHRT_MAX = "65535" /\ str_length (to_string USHRT_MAX) = 5 /\
  to_string (Z.b2z true) = "1" /\ str_length (to_string (Z.b2z true)) = 1 /\
  max_size PATH_MAX
  = 3 * str_length (to_string PID_MAX) + 2 * str_length (to_string USHRT_MAX)
    + str_length (to_string (Z.b2z true)) + 3 * PATH_MAX + 9 /\
  max_size PATH_MAX = 3 * PATH_MAX + 35.
Proof.
  intros Hlo Hhi.
  assert (Hmax : max_size PATH_MAX = 3 * PATH_MAX + 35).
  { unfold max_size.
    change (str_length (to_string PID_MAX)) with 5.
    change (str_length (to_string USHRT_MAX)) with 5.
    change (str_length (to_string (Z.b2z true))) with 1.
    unfold size_t, INT_MAX in *.
    rewrite !(Z.mod_small (3 * 5)), !(Z.mod_small (2 * 5)) by lia.
    rewrite (Z.mod_small (3 * 5 + 2 * 5)) by lia.
    rewrite (Z.mod_small (3 * 5 + 2 * 5 + 1)) by lia.
    rewrite (Z.mod_small (3 * PATH_MAX)) by lia.
    rewrite (Z.mod_small (3 * 5 + 2 * 5 + 1 + 3 * PATH_MAX)) by lia.
    rewrite Z.mod_small by lia. lia. }
  repeat split; try reflexivity; [|exact Hmax].
  rewrite Hmax.
  change (str_length (to_string PID_MAX)) with 5.
  change (str_length (to_string USHRT_MAX)) with 5.
  change (str_length (to_string (Z.b2z true))) with 1.
  lia.
Qed.

Lemma max_size_formula_witness :
  to_string PID_MAX = "99999" /\ str_length (to_string PID_MAX) = 5 /\
  to_string USHRT_MAX = "65535" /\ str_length (to_string USHRT_MAX) = 5 /\
  to_string (Z.b2z true) = "1" /\ str_length (to_string (Z.b2z true)) = 1 /\
  max_size 1024
  = 3 * str_length (to_string PID_MAX) + 2 * str_length (to_string USHRT_MAX)
    + str_length (to_string (Z.b2z true)) + 3 * 1024 + 9 /\
  max_size 1024 = 3 * 1024 + 35.
Proof.
  apply (max_size_formula 1024); unfold INT_MAX; lia.
Defined.

(** C10.  The convenience constructor returns what the explicit-mode
    constructor returns for [getpid()], child pid [0] and [getppid()] with
    the same type, paths, executable, mode and modified flag; it leaves the
    process state as it was, so no [stat] is made. *)
Theorem IOEvent_self_delegates env type src exec mode modified dest w :
  IOEvent_self env type src exec mode modified dest w
  = IOEvent_mode (getpid env) 0 (getppid env) type src dest exec mode modified w /\
  exists e,
    IOEvent_self env type src exec mode modified dest w = Ok (e, w) /\
    GetPid e = getpid env /\ GetChildPid e = 0 /\ GetParentPid e = getppid env /\
    GetOriginalParentPid e = Some (getppid env) /\
    GetEventType e = type /\ GetSrcPath e = src /\ GetDstPath e = dest /\
    GetExecutablePath e = exec /\ GetMode e = mode /\ FSEntryModified e = modified.
Proof.
  split; [reflexivity|].
  eexists. split; [reflexivity|]. by repeat split.
Qed.

(** ** The event constructors of the wrappers *)




(** A fork result that fails the comparison: nothing happens. *)
Lemma FORK_EVENT_CONSTRUCTOR_skip env result child_pid pid ppid cmp w :
  eval_cmp cmp result 0 = false ->
  FORK_EVENT_CONSTRUCTOR env result child_pid pid ppid cmp w = Ok (result, w).
Proof.
  intros Hcmp. unfold FORK_EVENT_CONSTRUCTOR. run. rewrite Hcmp. run.
  by rewrite world_eta.
Qed.

(** A fork result that passes it: one report, about the child. *)
Lemma FORK_EVENT_CONSTRUCTOR_report env result child_pid pid ppid cmp w :
  eval_cmp cmp result 0 = true ->
  str_empty (get_executable_path env child_pid) = false ->
  FORK_EVENT_CONSTRUCTOR env result child_pid pid ppid cmp w
  = Ok (result,
        {| errno := errno w;
           trackedPaths_ := trackedPaths_ w;
           sandbox_log :=
             sandbox_log w ++
             [{| report_event :=
                   {| pid_ := pid; cpid_ := child_pid; ppid_ := ppid;
                      eventType_ := ES_EVENT_TYPE_NOTIFY_FORK;
                      mode_ := 0; modified_ := false;
                      executable_ := get_executable_path env child_pid;
                      src_path_ := ""; dst_path_ := "";
                      oppid_ := Some ppid; auditToken_ := None |};
                 report_type := ES_EVENT_TYPE_NOTIFY_FORK;
                 report_flags := [] |}];
           stat_log := stat_log w |}).
Proof.
  intros Hcmp Hexec. unfold FORK_EVENT_CONSTRUCTOR. run. rewrite Hcmp. run.
  rewrite IOEvent_get_mode_no_query by done. run. reflexivity.
Qed.

Lemma WRITE_EVENT_CONSTRUCTOR_failed env path dst success fildes result w :
  success <> 0 ->
  WRITE_EVENT_CONSTRUCTOR env path dst success fildes result w = Ok (result, w).
Proof.
  intros Hsuccess. unfold WRITE_EVENT_CONSTRUCTOR. run.
  apply Z.eqb_neq in Hsuccess. rewrite Hsuccess. run. by rewrite world_eta.
Qed.

Lemma WRITE_EVENT_CONSTRUCTOR_tracked env path dst success fildes result w :
  is_Some (trackedPaths_ w !! path) ->
  WRITE_EVENT_CONSTRUCTOR env path dst success fildes result w = Ok (result, w).
Proof.
  intros [entry Hentry]. unfold WRITE_EVENT_CONSTRUCTOR. run.
  destruct (success =? 0); run; [|by rewrite world_eta].
  unfold trackedPaths_get. rewrite Hentry. run. by rewrite world_eta.
Qed.

Lemma WRITE_EVENT_CONSTRUCTOR_first env path dst fildes result w :
  str_empty (get_executable_path env (getpid env)) = false ->
  trackedPaths_ w !! path = None ->
  WRITE_EVENT_CONSTRUCTOR env path dst 0 fildes result w
  = Ok (result, world_after_write env path dst fildes w).
Proof.
  intros Hexec Hfresh. unfold WRITE_EVENT_CONSTRUCTOR. run.
  unfold trackedPaths_get. rewrite Hfresh. run.
  rewrite IOEvent_get_mode_query by done. run.
  unfold world_after_write, trackedPaths_insert. simpl. by rewrite Hfresh.
Qed.

(** C1.  A write wrapper of a process with a non-empty executable path
    returns its result; it leaves the reports and the tracked paths alone
    unless the call succeeded ([success == 0]) and the path was not
    tracked, in which case it tracks the path and sends one write event for
    it; a successful write followed by a second successful write to the
    same path ends in the state the first one left, so the two together
    send exactly one event when the path was not tracked before. *)
Theorem write_event_reported_once env path dst success fildes result w :
  str_empty (get_executable_path env (getpid env)) = false ->
  exists w',
    WRITE_EVENT_CONSTRUCTOR env path dst success fildes result w = Ok (result, w') /\
    (success <> 0 \/ is_Some (trackedPaths_ w !! path) -> w' = w) /\
    (success = 0 -> trackedPaths_ w !! path = None ->
     exists e,
       sandbox_log w'
       = (sandbox_log w ++
          [{| report_event := e; report_type := ES_EVENT_TYPE_NOTIFY_WRITE;
              report_flags := [] |}])%list /\
       GetEventType e = ES_EVENT_TYPE_NOTIFY_WRITE /\
       GetSrcPath e = path /\ GetDstPath e = string_of_c_str dst /\
       GetPid e = getpid env /\
       GetExecutablePath e = get_executable_path env (getpid env) /\
       trackedPaths_ w' !! path = Some {| entry_fildes := fildes |}) /\
    (success = 0 -> is_Some (trackedPaths_ w' !! path)) /\
    (forall dst2 fildes2 result2,
        success = 0 ->
        (WRITE_EVENT_CONSTRUCTOR env path dst success fildes result ;;
         WRITE_EVENT_CONSTRUCTOR env path dst2 0 fildes2 result2) w
        = Ok (result2, w')).
Proof.
  intros Hexec.
  destruct (decide (success = 0)) as [-> | Hfailed].
  - destruct (trackedPaths_ w !! path) as [entry|] eqn:Hentry.
    + exists w.
      assert (Htracked : is_Some (trackedPaths_ w !! path)) by (by rewrite Hentry).
      split; [by apply WRITE_EVENT_CONSTRUCTOR_tracked|].
      split; [done|]. split; [done|]. split; [done|].
      intros dst2 fildes2 result2 _. unfold mbind, M_bind.
      rewrite WRITE_EVENT_CONSTRUCTOR_tracked by done.
      by apply WRITE_EVENT_CONSTRUCTOR_tracked.
    + exists (world_after_write env path dst fildes w).
      assert (Hnow : trackedPaths_ (world_after_write env path dst fildes w) !! path
                     = Some {| entry_fildes := fildes |})
        by apply lookup_insert_eq.
      split; [by apply WRITE_EVENT_CONSTRUCTOR_first|].
      split; [intros [? | [? ?]]; done|].
      split; [intros _ _; eexists; split; [reflexivity|]; by repeat split|].
      split; [by rewrite Hnow|].
      intros dst2 fildes2 result2 _. unfold mbind, M_bind.
      rewrite WRITE_EVENT_CONSTRUCTOR_first by done.
      apply WRITE_EVENT_CONSTRUCTOR_tracked. by rewrite Hnow.
  - exists w.
    split; [by apply WRITE_EVENT_CONSTRUCTOR_failed|].
    split; [done|]. split; [done|]. split; done.
Qed.

Lemma write_event_reported_once_witness :
  exists w',
    WRITE_EVENT_CONSTRUCTOR sample_env "/tmp/a" None 0 3 5 initial_world = Ok (5, w') /\
    (0 <> 0 \/ is_Some (trackedPaths_ initial_world !! "/tmp/a") -> w' = initial_world) /\
    (0 = 0 -> trackedPaths_ initial_world !! "/tmp/a" = None ->
     exists e,
       sandbox_log w'
       = (sandbox_log initial_world ++
          [{| report_event := e; report_type := ES_EVENT_TYPE_NOTIFY_WRITE;
              report_flags := [] |}])%list /\
       GetEventType e = ES_EVENT_TYPE_NOTIFY_WRITE /\
       GetSrcPath e = "/tmp/a" /\ GetDstPath e = string_of_c_str None /\
       GetPid e = getpid sample_env /\
       GetExecutablePath e = get_executable_path sample_env (getpid sample_env) /\
       trackedPaths_ w' !! "/tmp/a" = Some {| entry_fildes := 3 |}) /\
    (0 = 0 -> is_Some (trackedPaths_ w' !! "/tmp/a")) /\
    (forall dst2 fildes2 result2,
        0 = 0 ->
        (WRITE_EVENT_CONSTRUCTOR sample_env "/tmp/a" None 0 3 5 ;;
         WRITE_EVENT_CONSTRUCTOR sample_env "/tmp/a" dst2 0 fildes2 result2) initial_world
        = Ok (result2, w')).
Proof.
  apply (write_event_reported_once sample_env "/tmp/a" None 0 3 5 initial_world).
  reflexivity.
Defined.

(** C2.  A fork wrapper whose result fails the comparison with [0] returns
    the result and changes nothing: no record, no report.  When the result
    passes it and the child's executable path is not empty, the wrapper
    sends exactly one [NOTIFY_FORK] event whose child pid is the value of
    the out-parameter and whose executable path is the one resolved for the
    child pid. *)
Theorem fork_event_gating env result child_pid pid ppid cmp w :
  (eval_cmp cmp result 0 = false ->
   FORK_EVENT_CONSTRUCTOR env result child_pid pid ppid cmp w = Ok (result, w)) /\
  (eval_cmp cmp result 0 = true ->
   str_empty (get_executable_path env child_pid) = false ->
   exists e w',
     FORK_EVENT_CONSTRUCTOR env result child_pid pid ppid cmp w = Ok (result, w') /\
     sandbox_log w'
     = (sandbox_log w ++
        [{| report_event := e; report_type := ES_EVENT_TYPE_NOTIFY_FORK;
            report_flags := [] |}])%list /\
     GetEventType e = ES_EVENT_TYPE_NOTIFY_FORK /\
     GetPid e = pid /\ GetChildPid e = child_pid /\ GetParentPid e = ppid /\
     GetExecutablePath e = get_executable_path env child_pid /\
     GetSrcPath e = "" /\ GetDstPath e = "" /\ GetMode e = 0 /\
     stat_log w' = stat_log w /\ trackedPaths_ w' = trackedPaths_ w).
Proof.
  split.
  - apply FORK_EVENT_CONSTRUCTOR_skip.
  - intros Hcmp Hexec. eexists _, _.
    split; [by apply FORK_EVENT_CONSTRUCTOR_report|].
    simpl. by repeat split.
Qed.

Lemma fork_event_gating_witness :
  FORK_EVENT_CONSTRUCTOR sample_env (-1) 0 100 1 op_eq initial_world
  = Ok (-1, initial_world) /\
  exists e w',
    FORK_EVENT_CONSTRUCTOR sample_env 0 200 100 1 op_eq initial_world = Ok (0, w') /\
    sandbox_log w'
    = (sandbox_log initial_world ++
       [{| report_event := e; report_type := ES_EVENT_TYPE_NOTIFY_FORK;
           report_flags := [] |}])%list /\
    GetEventType e = ES_EVENT_TYPE_NOTIFY_FORK /\
    GetPid e = 100 /\ GetChildPid e = 200 /\ GetParentPid e = 1 /\
    GetExecutablePath e = get_executable_path sample_env 200 /\
    GetSrcPath e = "" /\ GetDstPath e = "" /\ GetMode e = 0 /\
    stat_log w' = stat_log initial_world /\
    trackedPaths_ w' = trackedPaths_ initial_world.
Proof.
  split.
  - apply (proj1 (fork_event_gating sample_env (-1) 0 100 1 op_eq initial_world)).
    reflexivity.
  - apply (proj2 (fork_event_gating sample_env 0 200 100 1 op_eq initial_world));
      reflexivity.
Defined.




(** ** The wire codec *)

Lemma append_nil_l (s : string) : "" +:+ s = s.
Proof. reflexivity. Qed.

Lemma append_cons (c : ascii) (s t : string) : String c s +:+ t = String c (s +:+ t).
Proof. reflexivity. Qed.

Lemma append_nil_r (s : string) : s +:+ "" = s.
Proof. induction s as [|c s IH]; [done|]. by rewrite append_cons, IH. Qed.

Lemma es_event_type_of_value_value (t : es_event_type_t) :
  es_event_type_of_value (es_event_type_value t) = Some t.
Proof. by destruct t. Qed.

Lemma bool_of_int_b2z (b : bool) : bool_of_int (Z.b2z b) = Some b.
Proof. by destruct b. Qed.

Lemma parse_int_to_string (z : Z) : parse_int (to_string z) = Some z.
Proof.
  unfold parse_int, to_string.
  rewrite NilZero.isi.
  - simpl. by rewrite DecimalZ.of_to.
  - destruct z; simpl; try discriminate.
    intros [= H]. by apply Unsigned.to_uint_nonnil in H.
  - destruct z; simpl; try discriminate.
    intros [= H]. by apply Unsigned.to_uint_nonnil in H.
Qed.

Lemma string_of_uint_delimiter_free (d : uint) :
  delimiter_free (NilEmpty.string_of_uint d) = true.
Proof.
  induction d; cbn [delimiter_free NilEmpty.string_of_uint]; try done;
    rewrite IHd; reflexivity.
Qed.

Lemma to_string_delimiter_free (z : Z) : delimiter_free (to_string z) = true.
Proof.
  unfold to_string.
  assert (Huint : forall d, delimiter_free (NilZero.string_of_uint d) = true).
  { intros d. destruct d; try apply string_of_uint_delimiter_free. reflexivity. }
  destruct (Z.to_int z) as [d | d];
    cbn [NilZero.string_of_int delimiter_free]; [apply Huint|].
  rewrite Huint. reflexivity.
Qed.

(** A C string holds no delimiter byte. *)
Lemma c_str_delimiter_free (s : string) : delimiter_free (c_str s) = true.
Proof.
  induction s as [|c s IH]; [done|]. cbn [c_str].
  destruct (Ascii.eqb c Ascii.zero) eqn:Hc; [done|].
  cbn [delimiter_free]. unfold wire_delimiter. by rewrite Hc, IH.
Qed.

Lemma c_str_idemp (s : string) : c_str (c_str s) = c_str s.
Proof.
  induction s as [|c s IH]; [done|]. cbn [c_str].
  destruct (Ascii.eqb c Ascii.zero) eqn:Hc; [done|].
  cbn [c_str]. by rewrite Hc, IH.
Qed.

(** Reading a field gives back what was put, and the rest of the stream. *)
Lemma get_field_put_field (field rest : string) :
  delimiter_free field = true ->
  get_field (put_field field rest) = Some (field, rest).
Proof.
  unfold put_field.
  induction field as [|c field IH]; cbn [delimiter_free].
  - intros _. rewrite append_nil_l. cbn [get_field]. by rewrite Ascii.eqb_refl.
  - intros [Hc Hfield]%andb_true_iff. apply negb_true_iff in Hc.
    rewrite append_cons. cbn [get_field]. rewrite Hc, IH by done. reflexivity.
Qed.

Lemma get_int_put_field (z : Z) (rest : string) :
  get_int (put_field (to_string z) rest) = Some (z, rest).
Proof.
  unfold get_int.
  rewrite get_field_put_field by apply to_string_delimiter_free.
  simpl. by rewrite parse_int_to_string.
Qed.

(** What [operator>>] reads from an event written by [operator<<],
    whatever follows it in the stream. *)
Lemma read_IOEvent_written (e : IOEvent) (rest : string) :
  read_IOEvent (operator_lshift "" e +:+ rest)
  = Some ({| pid_ := pid_ e; cpid_ := cpid_ e; ppid_ := ppid_ e;
             eventType_ := eventType_ e; mode_ := mode_ e;
             modified_ := modified_ e;
             executable_ := c_str (executable_ e);
             src_path_ := c_str (src_path_ e);
             dst_path_ := c_str (dst_path_ e);
             oppid_ := None; auditToken_ := None |}, rest).
Proof.
  assert (Happ : forall field s, put_field field s +:+ rest
                                 = put_field field (s +:+ rest)).
  { intros field s. unfold put_field.
    induction field as [|c field IH]; [done|]. by rewrite !append_cons, IH. }
  unfold operator_lshift. rewrite append_nil_l, !Happ, append_nil_l.
  unfold read_IOEvent.
  repeat (rewrite get_int_put_field; simpl).
  rewrite es_event_type_of_value_value. simpl.
  repeat (rewrite get_int_put_field; simpl).
  rewrite bool_of_int_b2z. simpl.
  repeat (rewrite get_field_put_field by apply c_str_delimiter_free; simpl).
  reflexivity.
Qed.

(** C9.  Every event written by [operator<<] and read back by
    [operator>>] gives a record and leaves nothing unread; the record has
    the same pids, event type, mode and modified flag, and its executable,
    source and destination paths are those of the event as C strings.  So
    for every event whose paths are C strings the record read back is
    equal to it field for field. *)
Theorem wire_roundtrip (e : IOEvent) :
  exists e',
    operator_rshift (operator_lshift "" e) = Ok (e', "") /\
    pid_ e' = pid_ e /\ cpid_ e' = cpid_ e /\ ppid_ e' = ppid_ e /\
    eventType_ e' = eventType_ e /\ mode_ e' = mode_ e /\
    modified_ e' = modified_ e /\
    executable_ e' = c_str (executable_ e) /\
    src_path_ e' = c_str (src_path_ e) /\
    dst_path_ e' = c_str (dst_path_ e) /\
    (c_string (executable_ e) -> c_string (src_path_ e) -> c_string (dst_path_ e) ->
     same_wire_fields e e') /\
    operator_rshift (operator_lshift "" e') = Ok (e', "").
Proof.
  pose proof (read_IOEvent_written e "") as Hread.
  rewrite append_nil_r in Hread.
  eexists. unfold operator_rshift at 1. rewrite Hread.
  split; [reflexivity|]. simpl.
  do 9 (split; [reflexivity|]).
  split.
  - unfold c_string, same_wire_fields. simpl. intros -> -> ->. by repeat split.
  - pose proof (read_IOEvent_written
                  {| pid_ := pid_ e; cpid_ := cpid_ e; ppid_ := ppid_ e;
                     eventType_ := eventType_ e; mode_ := mode_ e;
                     modified_ := modified_ e;
                     executable_ := c_str (executable_ e);
                     src_path_ := c_str (src_path_ e);
                     dst_path_ := c_str (dst_path_ e);
                     oppid_ := None; auditToken_ := None |} "") as Hagain.
    rewrite append_nil_r in Hagain. simpl in Hagain. rewrite !c_str_idemp in Hagain.
    unfold operator_rshift. by rewrite Hagain.
Qed.

Lemma wire_roundtrip_witness :
  exists e',
    operator_rshift (operator_lshift "" sample_write_event) = Ok (e', "") /\
    same_wire_fields sample_write_event e'.
Proof.
  destruct (wire_roundtrip sample_write_event)
    as (e' & Hread & _ & _ & _ & _ & _ & _ & _ & _ & _ & Hsame & _).
  exists e'. split; [exact Hread|]. by apply Hsame.
Defined.

(** * Further properties of the code *)

(** ** Accessors *)

(** X1.  [GetEventPath] after [SetEventPath] on the same index gives the
    value set; the set changes the source path when the index is
    [SRC_PATH] and the destination path otherwise, a second set on the same
    index overrides the first, and no other field changes: in particular
    the mode, and with it [EventPathExists], is the one of the old path. *)
Theorem GetEventPath_SetEventPath (e : IOEvent) (value : string) (index : Z) :
  GetEventPath (SetEventPath e value index) index = value /\
  GetSrcPath (SetEventPath e value index)
  = (if index =? SRC_PATH then value else GetSrcPath e) /\
  GetDstPath (SetEventPath e value index)
  = (if index =? SRC_PATH then GetDstPath e else value) /\
  (forall value',
      SetEventPath (SetEventPath e value index) value' index
      = SetEventPath e value' index) /\
  GetPid (SetEventPath e value index) = GetPid e /\
  GetChildPid (SetEventPath e value index) = GetChildPid e /\
  GetParentPid (SetEventPath e value index) = GetParentPid e /\
  GetOriginalParentPid (SetEventPath e value index) = GetOriginalParentPid e /\
  GetProcessAuditToken (SetEventPath e value index) = GetProcessAuditToken e /\
  GetEventType (SetEventPath e value index) = GetEventType e /\
  GetExecutablePath (SetEventPath e value index) = GetExecutablePath e /\
  GetMode (SetEventPath e value index) = GetMode e /\
  FSEntryModified (SetEventPath e value index) = FSEntryModified e /\
  EventPathExists (SetEventPath e value index) = EventPathExists e.
Proof.
  unfold GetEventPath, SetEventPath, GetSrcPath, GetDstPath.
  destruct (index =? SRC_PATH) eqn:Hindex; simpl; rewrite ?Hindex;
    repeat split; reflexivity.
Qed.

(** X2.  Every index other than [SRC_PATH] addresses the destination path:
    reading it gives the destination path, setting it sets the destination
    path and keeps the source path. *)
Theorem SetEventPath_other_index (e : IOEvent) (value : string) (index : Z) :
  index <> SRC_PATH ->
  GetEventPath e index = GetDstPath e /\
  SetEventPath e value index = SetEventPath e value DST_PATH /\
  GetDstPath (SetEventPath e value index) = value /\
  GetSrcPath (SetEventPath e value index) = GetSrcPath e.
Proof.
  intros Hindex%Z.eqb_neq.
  unfold GetEventPath, SetEventPath, GetSrcPath, GetDstPath.
  rewrite Hindex. simpl. by repeat split.
Qed.

Lemma SetEventPath_other_index_witness :
  GetEventPath sample_write_event 2 = GetDstPath sample_write_event /\
  SetEventPath sample_write_event "/tmp/b" 2
  = SetEventPath sample_write_event "/tmp/b" DST_PATH /\
  GetDstPath (SetEventPath sample_write_event "/tmp/b" 2) = "/tmp/b" /\
  GetSrcPath (SetEventPath sample_write_event "/tmp/b" 2) = GetSrcPath sample_write_event.
Proof.
  apply (SetEventPath_other_index sample_write_event "/tmp/b" 2).
  unfold SRC_PATH. lia.
Defined.

(** ** The mode-querying constructor *)

(** X3.  A null source or destination pointer is the empty string: the
    constructor behaves on null pointers as on empty C strings, and with
    the mode flag set and a null source it runs [stat] on the empty path. *)
Theorem IOEvent_get_mode_null_paths env pid cpid ppid type dst exec get_mode modified w :
  IOEvent_get_mode env pid cpid ppid type None None exec get_mode modified w
  = IOEvent_get_mode env pid cpid ppid type (Some "") (Some "") exec get_mode modified w /\
  (str_empty exec = false ->
   exists e w',
     IOEvent_get_mode env pid cpid ppid type None dst exec true modified w = Ok (e, w') /\
     GetSrcPath e = "" /\
     stat_log w' = (stat_log w ++ [""])%list /\
     GetMode e = match stat env "" with StatOk st_mode => st_mode | StatErr _ => 0 end).
Proof.
  split; [reflexivity|].
  intros Hexec. eexists _, _.
  split; [by apply IOEvent_get_mode_query|]. by repeat split.
Qed.

Lemma IOEvent_get_mode_null_paths_witness :
  exists e w',
    IOEvent_get_mode sample_env 100 0 1 ES_EVENT_TYPE_NOTIFY_OPEN None None "/bin/sh"
      true false initial_world = Ok (e, w') /\
    GetSrcPath e = "" /\
    stat_log w' = (stat_log initial_world ++ [""])%list /\
    GetMode e = match stat sample_env "" with StatOk st_mode => st_mode | StatErr _ => 0 end.
Proof.
  apply (proj2 (IOEvent_get_mode_null_paths sample_env 100 0 1 ES_EVENT_TYPE_NOTIFY_OPEN
                  None "/bin/sh" true false initial_world)).
  reflexivity.
Defined.

(** X4.  With a non-empty executable path the mode-querying constructor
    returns the record the explicit-mode constructor builds from the same
    arguments and the mode it found: the mode [stat] gave, [0] when [stat]
    failed or was not asked for.  Its only effects are the [stat] it makes
    when asked and the error number a failed [stat] leaves in [errno]. *)
Theorem IOEvent_get_mode_refines_IOEvent_mode env pid cpid ppid type src dst exec
    get_mode modified w :
  str_empty exec = false ->
  exists e w',
    IOEvent_get_mode env pid cpid ppid type src dst exec get_mode modified w
    = Ok (e, w') /\
    IOEvent_mode pid cpid ppid type (string_of_c_str src) (string_of_c_str dst) exec
      (GetMode e) modified w' = Ok (e, w') /\
    GetMode e = (if get_mode
                 then match stat env (string_of_c_str src) with
                      | StatOk st_mode => st_mode
                      | StatErr _ => 0
                      end
                 else 0) /\
    errno w' = (if get_mode
                then match stat env (string_of_c_str src) with
                     | StatOk _ => errno w
                     | StatErr err => err
                     end
                else errno w) /\
    stat_log w' = (stat_log w ++ if get_mode then [string_of_c_str src] else [])%list /\
    trackedPaths_ w' = trackedPaths_ w /\
    sandbox_log w' = sandbox_log w.
Proof.
  intros Hexec. destruct get_mode.
  - eexists _, _. split; [by apply IOEvent_get_mode_query|].
    simpl. by repeat split.
  - eexists _, _. split; [by apply IOEvent_get_mode_no_query|].
    simpl. rewrite app_nil_r. by repeat split.
Qed.

Lemma IOEvent_get_mode_refines_IOEvent_mode_witness :
  exists e w',
    IOEvent_get_mode sample_env 100 0 1 ES_EVENT_TYPE_NOTIFY_OPEN (Some "/tmp/missing")
      None "/bin/sh" true false initial_world = Ok (e, w') /\
    IOEvent_mode 100 0 1 ES_EVENT_TYPE_NOTIFY_OPEN (string_of_c_str (Some "/tmp/missing"))
      (string_of_c_str None) "/bin/sh" (GetMode e) false w' = Ok (e, w') /\
    GetMode e = (if true
                 then match stat sample_env (string_of_c_str (Some "/tmp/missing")) with
                      | StatOk st_mode => st_mode
                      | StatErr _ => 0
                      end
                 else 0) /\
    errno w' = (if true
                then match stat sample_env (string_of_c_str (Some "/tmp/missing")) with
                     | StatOk _ => errno initial_world
                     | StatErr err => err
                     end
                else errno initial_world) /\
    stat_log w'
    = (stat_log initial_world ++
       if true then [string_of_c_str (Some "/tmp/missing")] else [])%list /\
    trackedPaths_ w' = trackedPaths_ initial_world /\
    sandbox_log w' = sandbox_log initial_world.
Proof.
  apply (IOEvent_get_mode_refines_IOEvent_mode sample_env 100 0 1
           ES_EVENT_TYPE_NOTIFY_OPEN (Some "/tmp/missing") None "/bin/sh" true false
           initial_world).
  reflexivity.
Defined.

(** ** The widths [max_size] reserves *)

Lemma all_below_spec (P : Z -> bool) (fuel : nat) (z : Z) :
  all_below P fuel z = true ->
  forall k, z <= k < z + Z.of_nat fuel -> P k = true.
Proof.
  revert z. induction fuel as [|fuel IH]; intros z Hall k Hk; [lia|].
  cbn [all_below] in Hall. apply andb_true_iff in Hall as [Hz Hrest].
  destruct (decide (k = z)) as [-> | Hne]; [done|].
  apply (IH (z + 1) Hrest). lia.
Qed.

Lemma five_digits_up_to_PID_MAX :
  all_below (fits_width 5) (Z.to_nat (PID_MAX + 1)) 0 = true.
Proof. vm_compute. reflexivity. Qed.

Lemma fits_five_digits (z : Z) :
  0 <= z <= PID_MAX -> str_length (to_string z) <= 5.
Proof.
  intros Hz. apply Z.leb_le.
  apply (all_below_spec (fits_width 5) _ 0 five_digits_up_to_PID_MAX).
  rewrite Z2Nat.id by (unfold PID_MAX; lia). lia.
Qed.

Lemma es_event_type_value_bounds (t : es_event_type_t) :
  0 <= es_event_type_value t <= es_event_type_value ES_EVENT_TYPE_LAST.
Proof. destruct t; simpl; lia. Qed.

(** X5.  The widths [max_size] reserves are enough for the values in
    range: a pid between [0] and [PID_MAX] is written in at most as many
    digits as [PID_MAX], an event type and a mode of at most [USHRT_MAX] in
    at most as many as [USHRT_MAX], and the modified flag in as many as
    [true]; so with three pids, a type, a mode, a flag and nine delimiters,
    what is left of [max_size] is three times [PATH_MAX]. *)
Theorem max_size_covers_numeric_fields (PATH_MAX pid cpid ppid mode : Z)
    (type : es_event_type_t) (modified : bool) :
  0 <= PATH_MAX -> 3 * PATH_MAX <= INT_MAX ->
  0 <= pid <= PID_MAX -> 0 <= cpid <= PID_MAX -> 0 <= ppid <= PID_MAX ->
  0 <= mode <= USHRT_MAX ->
  str_length (to_string pid) <= str_length (to_string PID_MAX) /\
  str_length (to_string (es_event_type_value type)) <= str_length (to_string USHRT_MAX) /\
  str_length (to_string mode) <= str_length (to_string USHRT_MAX) /\
  str_length (to_string (Z.b2z modified)) = str_length (to_string (Z.b2z true)) /\
  str_length (to_string pid) + str_length (to_string cpid) + str_length (to_string ppid)
  + str_length (to_string (es_event_type_value type)) + str_length (to_string mode)
  + str_length (to_string (Z.b2z modified)) + 9 + 3 * PATH_MAX
  <= max_size PATH_MAX.
Proof.
  intros Hlo Hhi Hpid Hcpid Hppid Hmode.
  change (str_length (to_string PID_MAX)) with 5.
  change (str_length (to_string USHRT_MAX)) with 5.
  change (str_length (to_string (Z.b2z true))) with 1.
  pose proof (es_event_type_value_bounds type) as Htype.
  change (es_event_type_value ES_EVENT_TYPE_LAST) with 88 in Htype.
  unfold USHRT_MAX in Hmode.
  assert (Hp := fits_five_digits pid Hpid).
  assert (Hc := fits_five_digits cpid Hcpid).
  assert (Hpp := fits_five_digits ppid Hppid).
  assert (Ht : str_length (to_string (es_event_type_value type)) <= 5)
    by (apply fits_five_digits; unfold PID_MAX; lia).
  assert (Hm : str_length (to_string mode) <= 5)
    by (apply fits_five_digits; unfold PID_MAX; lia).
  assert (Hb : str_length (to_string (Z.b2z modified)) = 1) by (by destruct modified).
  assert (Hmax : max_size PATH_MAX = 3 * PATH_MAX + 35).
  { unfold max_size.
    change (str_length (to_string PID_MAX)) with 5.
    change (str_length (to_string USHRT_MAX)) with 5.
    change (str_length (to_string (Z.b2z true))) with 1.
    unfold size_t, INT_MAX in *.
    rewrite !(Z.mod_small (3 * 5)), !(Z.mod_small (2 * 5)) by lia.
    rewrite (Z.mod_small (3 * 5 + 2 * 5)) by lia.
    rewrite (Z.mod_small (3 * 5 + 2 * 5 + 1)) by lia.
    rewrite (Z.mod_small (3 * PATH_MAX)) by lia.
    rewrite (Z.mod_small (3 * 5 + 2 * 5 + 1 + 3 * PATH_MAX)) by lia.
    rewrite Z.mod_small by lia. lia. }
  rewrite Hmax. repeat split; lia.
Qed.

Lemma max_size_covers_numeric_fields_witness :
  str_length (to_string 100) <= str_length (to_string PID_MAX) /\
  str_length (to_string (es_event_type_value ES_EVENT_TYPE_NOTIFY_WRITE))
  <= str_length (to_string USHRT_MAX) /\
  str_length (to_string 33188) <= str_length (to_string USHRT_MAX) /\
  str_length (to_string (Z.b2z false)) = str_length (to_string (Z.b2z true)) /\
  str_length (to_string 100) + str_length (to_string 0) + str_length (to_string 1)
  + str_length (to_string (es_event_type_value ES_EVENT_TYPE_NOTIFY_WRITE))
  + str_length (to_string 33188)
  + str_length (to_string (Z.b2z false)) + 9 + 3 * 1024
  <= max_size 1024.
Proof.
  apply (max_size_covers_numeric_fields 1024 100 0 1 33188 ES_EVENT_TYPE_NOTIFY_WRITE
           false); unfold INT_MAX, PID_MAX, USHRT_MAX; lia.
Defined.

(** ** The event types *)

Lemma es_event_type_value_of_value (z : Z) (t : es_event_type_t) :
  es_event_type_of_value z = Some t -> es_event_type_value t = z.
Proof.
  destruct z as [|p|p]; [by intros [= <-]| |discriminate].
  do 7 (destruct p as [p|p|]; try discriminate; try (by intros [= <-])).
Qed.

(** X6.  The enumerators of [es_event_type_t] are numbered from [0]
    without gaps: the numbering is injective, every number from [0] to
    that of [ES_EVENT_TYPE_LAST], which is [88], names an event type and no
    other number does, and [ES_EVENT_TYPE_LAST] is above every other
    type. *)
Theorem es_event_type_numbering (t t' : es_event_type_t) (z : Z) :
  (es_event_type_value t = es_event_type_value t' <-> t = t') /\
  0 <= es_event_type_value t <= es_event_type_value ES_EVENT_TYPE_LAST /\
  es_event_type_value ES_EVENT_TYPE_LAST = 88 /\
  (es_event_type_value t = es_event_type_value ES_EVENT_TYPE_LAST
   <-> t = ES_EVENT_TYPE_LAST) /\
  (es_event_type_of_value z = Some t <-> es_event_type_value t = z) /\
  (es_event_type_of_value z = None
   <-> z < 0 \/ es_event_type_value ES_EVENT_TYPE_LAST < z).
Proof.
  assert (Hinj : forall a b, es_event_type_value a = es_event_type_value b -> a = b).
  { intros a b Hab.
    pose proof (es_event_type_of_value_value a) as Ha.
    rewrite Hab, es_event_type_of_value_value in Ha. congruence. }
  split; [split; [apply Hinj | by intros ->]|].
  split; [apply es_event_type_value_bounds|].
  split; [reflexivity|].
  split; [split; [apply Hinj | by intros ->]|].
  split.
  - split; [apply es_event_type_value_of_value|].
    intros <-. apply es_event_type_of_value_value.
  - change (es_event_type_value ES_EVENT_TYPE_LAST) with 88. split.
    + intros Hnone.
      destruct (decide (0 <= z <= 88)) as [Hz|Hz]; [exfalso|lia].
      assert (Hsome : all_below
                        (fun k => bool_decide (is_Some (es_event_type_of_value k)))
                        (Z.to_nat 89) 0 = true) by (vm_compute; reflexivity).
      assert (Hk := all_below_spec _ _ 0 Hsome z ltac:(lia)). simpl in Hk.
      apply bool_decide_eq_true in Hk. rewrite Hnone in Hk. by destruct Hk.
    + intros Hz. destruct (es_event_type_of_value z) as [k|] eqn:Hk; [|done].
      apply es_event_type_value_of_value in Hk.
      pose proof (es_event_type_value_bounds k) as Hb.
      change (es_event_type_value ES_EVENT_TYPE_LAST) with 88 in Hb. lia.
Qed.

(** ** The event constructors, case by case *)

Lemma IOEvent_get_mode_abort env pid cpid ppid type src dst exec get_mode modified w :
  str_empty exec = true ->
  IOEvent_get_mode env pid cpid ppid type src dst exec get_mode modified w
  = Fail AssertionFailed.
Proof. intros ->%str_empty_true. reflexivity. Qed.

Lemma IOEvent_get_mode_run env pid cpid ppid type src dst exec get_mode w :
  str_empty exec = false ->
  IOEvent_get_mode env pid cpid ppid type src dst exec get_mode false w
  = Ok (interposed_event pid cpid ppid type (string_of_c_str src) (string_of_c_str dst)
          exec (queried_mode env get_mode (string_of_c_str src)),
        {| errno := if get_mode
                    then match stat env (string_of_c_str src) with
                         | StatOk _ => errno w
                         | StatErr err => err
                         end
                    else errno w;
           trackedPaths_ := trackedPaths_ w;
           sandbox_log := sandbox_log w;
           stat_log := stat_log w ++ if get_mode then [string_of_c_str src] else [] |}).
Proof.
  intros Hexec. destruct get_mode.
  - by rewrite IOEvent_get_mode_query.
  - rewrite IOEvent_get_mode_no_query by done.
    by rewrite app_nil_r, world_eta.
Qed.

Lemma DEFAULT_EVENT_CONSTRUCTOR_abort env type src dst mode result w :
  str_empty (get_executable_path env (getpid env)) = true ->
  DEFAULT_EVENT_CONSTRUCTOR env type src dst mode result w = Fail AssertionFailed.
Proof.
  intros Hexec. unfold DEFAULT_EVENT_CONSTRUCTOR. run.
  by rewrite IOEvent_get_mode_abort.
Qed.

Lemma DEFAULT_EVENT_CONSTRUCTOR_run env type src dst mode result w :
  str_empty (get_executable_path env (getpid env)) = false ->
  DEFAULT_EVENT_CONSTRUCTOR env type src dst mode result w
  = Ok (result,
        world_after_report w
          {| report_event :=
               interposed_event (getpid env) 0 (getppid env) type
                 (string_of_c_str src) (string_of_c_str dst)
                 (get_executable_path env (getpid env))
                 (queried_mode env mode (string_of_c_str src));
             report_type := type; report_flags := [] |}
          (if mode then [string_of_c_str src] else [])).
Proof.
  intros Hexec. unfold DEFAULT_EVENT_CONSTRUCTOR. run.
  rewrite IOEvent_get_mode_run by done. run. reflexivity.
Qed.

Lemma DEFAULT_EVENT_CONSTRUCTOR_NO_RESOLVE_skip env type src dst mode result w :
  DEFAULT_EVENT_CONSTRUCTOR_NO_RESOLVE env type src dst mode false result w
  = Ok (result, w).
Proof. unfold DEFAULT_EVENT_CONSTRUCTOR_NO_RESOLVE. run. by rewrite world_eta. Qed.

Lemma DEFAULT_EVENT_CONSTRUCTOR_NO_RESOLVE_abort env type src dst mode result w :
  str_empty (get_executable_path env (getpid env)) = true ->
  DEFAULT_EVENT_CONSTRUCTOR_NO_RESOLVE env type src dst mode true result w
  = Fail AssertionFailed.
Proof.
  intros Hexec. unfold DEFAULT_EVENT_CONSTRUCTOR_NO_RESOLVE. run.
  by rewrite IOEvent_get_mode_abort.
Qed.

Lemma DEFAULT_EVENT_CONSTRUCTOR_NO_RESOLVE_run env type src dst mode result w :
  str_empty (get_executable_path env (getpid env)) = false ->
  DEFAULT_EVENT_CONSTRUCTOR_NO_RESOLVE env type src dst mode true result w
  = Ok (result,
        world_after_report w
          {| report_event :=
               interposed_event (getpid env) 0 (getppid env) type
                 (string_of_c_str src) (string_of_c_str dst)
                 (get_executable_path env (getpid env))
                 (queried_mode env true (string_of_c_str src));
             report_type := type; report_flags := [false; false] |}
          [string_of_c_str src]).
Proof.
  intros Hexec. unfold DEFAULT_EVENT_CONSTRUCTOR_NO_RESOLVE. run.
  rewrite IOEvent_get_mode_run by done. run. reflexivity.
Qed.

Lemma EXEC_EVENT_CONSTRUCTOR_abort env path w :
  str_empty (get_executable_path env (getpid env)) = true ->
  EXEC_EVENT_CONSTRUCTOR env path w = Fail AssertionFailed.
Proof.
  intros Hexec. unfold EXEC_EVENT_CONSTRUCTOR. run.
  by rewrite IOEvent_get_mode_abort.
Qed.

Lemma EXEC_EVENT_CONSTRUCTOR_run env path w :
  str_empty (get_executable_path env (getpid env)) = false ->
  EXEC_EVENT_CONSTRUCTOR env path w
  = Ok (tt,
        let r := {| report_event :=
                      interposed_event (getpid env) 0 (getppid env)
                        ES_EVENT_TYPE_NOTIFY_EXEC (string_of_c_str path) ""
                        (get_executable_path env (getpid env)) 0;
                    report_type := ES_EVENT_TYPE_NOTIFY_EXEC;
                    report_flags := [true] |} in
        {| errno := send_to_sandbox_errno env r
                      (get_executable_path_errno env (getpid env) (errno w));
           trackedPaths_ := trackedPaths_ w;
           sandbox_log := sandbox_log w ++ [r];
           stat_log := stat_log w |}).
Proof.
  intros Hexec. unfold EXEC_EVENT_CONSTRUCTOR. run.
  rewrite IOEvent_get_mode_run by done. run. by rewrite app_nil_r.
Qed.

Lemma EXIT_EVENT_CONSTRUCTOR_abort env w :
  str_empty (get_executable_path env (getpid env)) = true ->
  EXIT_EVENT_CONSTRUCTOR env w = Fail AssertionFailed.
Proof.
  intros Hexec. unfold EXIT_EVENT_CONSTRUCTOR. run.
  by rewrite IOEvent_get_mode_abort.
Qed.

Lemma EXIT_EVENT_CONSTRUCTOR_run env w :
  str_empty (get_executable_path env (getpid env)) = false ->
  EXIT_EVENT_CONSTRUCTOR env w
  = Ok (tt,
        let r := {| report_event :=
                      interposed_event (getpid env) 0 (getppid env)
                        ES_EVENT_TYPE_NOTIFY_EXIT "" ""
                        (get_executable_path env (getpid env)) 0;
                    report_type := ES_EVENT_TYPE_NOTIFY_EXIT;
                    report_flags := [] |} in
        {| errno := send_to_sandbox_errno env r
                      (get_executable_path_errno env (getpid env) (errno w));
           trackedPaths_ := trackedPaths_ w;
           sandbox_log := sandbox_log w ++ [r];
           stat_log := stat_log w |}).
Proof.
  intros Hexec. unfold EXIT_EVENT_CONSTRUCTOR. run.
  rewrite IOEvent_get_mode_run by done. run. by rewrite app_nil_r.
Qed.

Lemma FORK_EVENT_CONSTRUCTOR_abort env result child_pid pid ppid cmp w :
  eval_cmp cmp result 0 = true ->
  str_empty (get_executable_path env child_pid) = true ->
  FORK_EVENT_CONSTRUCTOR env result child_pid pid ppid cmp w = Fail AssertionFailed.
Proof.
  intros Hcmp Hexec. unfold FORK_EVENT_CONSTRUCTOR. run. rewrite Hcmp. run.
  by rewrite IOEvent_get_mode_abort.
Qed.

Lemma FORK_EVENT_CONSTRUCTOR_run env result child_pid pid ppid cmp w :
  eval_cmp cmp result 0 = true ->
  str_empty (get_executable_path env child_pid) = false ->
  FORK_EVENT_CONSTRUCTOR env result child_pid pid ppid cmp w
  = Ok (result,
        world_after_report w
          {| report_event :=
               interposed_event pid child_pid ppid ES_EVENT_TYPE_NOTIFY_FORK "" ""
                 (get_executable_path env child_pid) 0;
             report_type := ES_EVENT_TYPE_NOTIFY_FORK; report_flags := [] |}
          []).
Proof.
  intros Hcmp Hexec. rewrite FORK_EVENT_CONSTRUCTOR_report by done.
  unfold world_after_report. by rewrite app_nil_r.
Qed.

Lemma STAT_EVENT_CONSTRUCTOR_run env type src st_mode result w :
  STAT_EVENT_CONSTRUCTOR env type src st_mode result w
  = Ok (result,
        world_after_report w
          {| report_event :=
               interposed_event (getpid env) 0 (getppid env) type src ""
                 (get_executable_path env (getpid env)) st_mode;
             report_type := type; report_flags := [] |}
          []).
Proof.
  unfold STAT_EVENT_CONSTRUCTOR, IOEvent_mode, world_after_report. run.
  by rewrite app_nil_r.
Qed.

Lemma WRITE_EVENT_CONSTRUCTOR_abort env path dst fildes result w :
  trackedPaths_ w !! path = None ->
  str_empty (get_executable_path env (getpid env)) = true ->
  WRITE_EVENT_CONSTRUCTOR env path dst 0 fildes result w = Fail AssertionFailed.
Proof.
  intros Hfresh Hexec. unfold WRITE_EVENT_CONSTRUCTOR. run.
  unfold trackedPaths_get. rewrite Hfresh. run.
  by rewrite IOEvent_get_mode_abort.
Qed.

(** X7.  When the event constructors abort.  A constructor fails, with a
    failed assertion, exactly when it reaches the mode-querying [IOEvent]
    constructor with an empty executable path: always for the default, exec
    and exit constructors of a process without executable path, only when
    asked to report for the no-resolve one, only for a fork result that
    passes the comparison and a child without executable path, only for a
    successful write to an untracked path; the stat constructor never
    fails. *)
Theorem event_constructor_abort_conditions env w :
  (forall type src dst mode result,
      DEFAULT_EVENT_CONSTRUCTOR env type src dst mode result w = Fail AssertionFailed
      <-> str_empty (get_executable_path env (getpid env)) = true) /\
  (forall type src dst mode report result,
      DEFAULT_EVENT_CONSTRUCTOR_NO_RESOLVE env type src dst mode report result w
      = Fail AssertionFailed
      <-> report = true /\ str_empty (get_executable_path env (getpid env)) = true) /\
  (forall path,
      EXEC_EVENT_CONSTRUCTOR env path w = Fail AssertionFailed
      <-> str_empty (get_executable_path env (getpid env)) = true) /\
  (EXIT_EVENT_CONSTRUCTOR env w = Fail AssertionFailed
   <-> str_empty (get_executable_path env (getpid env)) = true) /\
  (forall result child_pid pid ppid cmp,
      FORK_EVENT_CONSTRUCTOR env result child_pid pid ppid cmp w = Fail AssertionFailed
      <-> eval_cmp cmp result 0 = true /\
          str_empty (get_executable_path env child_pid) = true) /\
  (forall type src st_mode result f,
      STAT_EVENT_CONSTRUCTOR env type src st_mode result w <> Fail f) /\
  (forall path dst success fildes result,
      WRITE_EVENT_CONSTRUCTOR env path dst success fildes result w = Fail AssertionFailed
      <-> success = 0 /\ trackedPaths_ w !! path = None /\
          str_empty (get_executable_path env (getpid env)) = true).
Proof.
  split; [|split; [|split; [|split; [|split; [|split]]]]].
  - intros type src dst mode result.
    destruct (str_empty (get_executable_path env (getpid env))) eqn:Hexec.
    + by rewrite DEFAULT_EVENT_CONSTRUCTOR_abort.
    + by rewrite DEFAULT_EVENT_CONSTRUCTOR_run.
  - intros type src dst mode [] result.
    + destruct (str_empty (get_executable_path env (getpid env))) eqn:Hexec.
      * by rewrite DEFAULT_EVENT_CONSTRUCTOR_NO_RESOLVE_abort.
      * rewrite DEFAULT_EVENT_CONSTRUCTOR_NO_RESOLVE_run by done.
        split; [done | by intros [_ ?]].
    + rewrite DEFAULT_EVENT_CONSTRUCTOR_NO_RESOLVE_skip.
      split; [done | by intros [? _]].
  - intros path.
    destruct (str_empty (get_executable_path env (getpid env))) eqn:Hexec.
    + by rewrite EXEC_EVENT_CONSTRUCTOR_abort.
    + by rewrite EXEC_EVENT_CONSTRUCTOR_run.
  - destruct (str_empty (get_executable_path env (getpid env))) eqn:Hexec.
    + by rewrite EXIT_EVENT_CONSTRUCTOR_abort.
    + by rewrite EXIT_EVENT_CONSTRUCTOR_run.
  - intros result child_pid pid ppid cmp.
    destruct (eval_cmp cmp result 0) eqn:Hcmp.
    + destruct (str_empty (get_executable_path env child_pid)) eqn:Hexec.
      * by rewrite FORK_EVENT_CONSTRUCTOR_abort.
      * rewrite FORK_EVENT_CONSTRUCTOR_run by done.
        split; [done | by intros [_ ?]].
    + rewrite FORK_EVENT_CONSTRUCTOR_skip by done.
      split; [done | by intros [? _]].
  - intros type src st_mode result f. by rewrite STAT_EVENT_CONSTRUCTOR_run.
  - intros path dst success fildes result.
    destruct (decide (success = 0)) as [-> | Hfailed].
    + destruct (trackedPaths_ w !! path) as [entry|] eqn:Hentry.
      * rewrite WRITE_EVENT_CONSTRUCTOR_tracked by (by rewrite Hentry).
        split; [done | by intros (_ & ? & _)].
      * destruct (str_empty (get_executable_path env (getpid env))) eqn:Hexec.
        -- by rewrite WRITE_EVENT_CONSTRUCTOR_abort.
        -- rewrite WRITE_EVENT_CONSTRUCTOR_first by done.
           split; [done | by intros (_ & _ & ?)].
    + rewrite WRITE_EVENT_CONSTRUCTOR_failed by done.
      split; [done | by intros (? & _)].
Qed.

(** X8.  The default constructor reports whatever the result of the
    call: for a process with an executable path it returns the result it
    was given and sends exactly one event, of the given type, for the
    running process (child pid [0]), with null paths as empty strings and
    the modified flag unset; the state it leaves is the same for every
    result.  The mode is queried, by one [stat] of the source path, only
    when the mode argument is set, and is [0] otherwise. *)
Theorem DEFAULT_EVENT_CONSTRUCTOR_reports_once env type src dst mode result w :
  str_empty (get_executable_path env (getpid env)) = false ->
  exists e w',
    DEFAULT_EVENT_CONSTRUCTOR env type src dst mode result w = Ok (result, w') /\
    (forall result',
        DEFAULT_EVENT_CONSTRUCTOR env type src dst mode result' w = Ok (result', w')) /\
    sandbox_log w'
    = (sandbox_log w ++
       [{| report_event := e; report_type := type; report_flags := [] |}])%list /\
    GetPid e = getpid env /\ GetChildPid e = 0 /\ GetParentPid e = getppid env /\
    GetEventType e = type /\
    GetSrcPath e = string_of_c_str src /\ GetDstPath e = string_of_c_str dst /\
    GetExecutablePath e = get_executable_path env (getpid env) /\
    FSEntryModified e = false /\
    GetMode e = queried_mode env mode (string_of_c_str src) /\
    stat_log w' = (stat_log w ++ if mode then [string_of_c_str src] else [])%list /\
    trackedPaths_ w' = trackedPaths_ w.
Proof.
  intros Hexec. eexists _, _.
  split; [by apply DEFAULT_EVENT_CONSTRUCTOR_run|].
  split; [intros; by apply DEFAULT_EVENT_CONSTRUCTOR_run|].
  by repeat split.
Qed.

Lemma DEFAULT_EVENT_CONSTRUCTOR_reports_once_witness :
  exists e w',
    DEFAULT_EVENT_CONSTRUCTOR sample_env ES_EVENT_TYPE_NOTIFY_OPEN (Some "/tmp/a") None
      true (-1) initial_world = Ok (-1, w') /\
    (forall result',
        DEFAULT_EVENT_CONSTRUCTOR sample_env ES_EVENT_TYPE_NOTIFY_OPEN (Some "/tmp/a") None
          true result' initial_world = Ok (result', w')) /\
    sandbox_log w'
    = (sandbox_log initial_world ++
       [{| report_event := e; report_type := ES_EVENT_TYPE_NOTIFY_OPEN;
           report_flags := [] |}])%list /\
    GetPid e = getpid sample_env /\ GetChildPid e = 0 /\
    GetParentPid e = getppid sample_env /\
    GetEventType e = ES_EVENT_TYPE_NOTIFY_OPEN /\
    GetSrcPath e = string_of_c_str (Some "/tmp/a") /\
    GetDstPath e = string_of_c_str None /\
    GetExecutablePath e = get_executable_path sample_env (getpid sample_env) /\
    FSEntryModified e = false /\
    GetMode e = queried_mode sample_env true (string_of_c_str (Some "/tmp/a")) /\
    stat_log w'
    = (stat_log initial_world ++
       if true then [string_of_c_str (Some "/tmp/a")] else [])%list /\
    trackedPaths_ w' = trackedPaths_ initial_world.
Proof.
  apply (DEFAULT_EVENT_CONSTRUCTOR_reports_once sample_env ES_EVENT_TYPE_NOTIFY_OPEN
           (Some "/tmp/a") None true (-1) initial_world).
  reflexivity.
Defined.

(** X9.  The no-resolve constructor does not use its mode argument: it
    behaves the same for both values.  When not asked to report it leaves
    the state as it was, even for a process without executable path; when
    asked to, it always queries the mode, with one [stat] of the source
    path, and sends one event with the two trailing arguments [false]. *)
Theorem DEFAULT_EVENT_CONSTRUCTOR_NO_RESOLVE_ignores_mode env type src dst mode result w :
  (forall report,
      DEFAULT_EVENT_CONSTRUCTOR_NO_RESOLVE env type src dst mode report result w
      = DEFAULT_EVENT_CONSTRUCTOR_NO_RESOLVE env type src dst (negb mode) report result w) /\
  DEFAULT_EVENT_CONSTRUCTOR_NO_RESOLVE env type src dst mode false result w
  = Ok (result, w) /\
  (str_empty (get_executable_path env (getpid env)) = false ->
   exists e w',
     DEFAULT_EVENT_CONSTRUCTOR_NO_RESOLVE env type src dst mode true result w
     = Ok (result, w') /\
     sandbox_log w'
     = (sandbox_log w ++
        [{| report_event := e; report_type := type;
            report_flags := [false; false] |}])%list /\
     GetEventType e = type /\
     GetSrcPath e = string_of_c_str src /\ GetDstPath e = string_of_c_str dst /\
     GetMode e = queried_mode env true (string_of_c_str src) /\
     stat_log w' = (stat_log w ++ [string_of_c_str src])%list /\
     trackedPaths_ w' = trackedPaths_ w).
Proof.
  split; [reflexivity|].
  split; [apply DEFAULT_EVENT_CONSTRUCTOR_NO_RESOLVE_skip|].
  intros Hexec. eexists _, _.
  split; [by apply DEFAULT_EVENT_CONSTRUCTOR_NO_RESOLVE_run|].
  by repeat split.
Qed.

Lemma DEFAULT_EVENT_CONSTRUCTOR_NO_RESOLVE_ignores_mode_witness :
  exists e w',
    DEFAULT_EVENT_CONSTRUCTOR_NO_RESOLVE sample_env ES_EVENT_TYPE_NOTIFY_CLOSE
      (Some "/tmp/a") None false true 0 initial_world = Ok (0, w') /\
    sandbox_log w'
    = (sandbox_log initial_world ++
       [{| report_event := e; report_type := ES_EVENT_TYPE_NOTIFY_CLOSE;
           report_flags := [false; false] |}])%list /\
    GetEventType e = ES_EVENT_TYPE_NOTIFY_CLOSE /\
    GetSrcPath e = string_of_c_str (Some "/tmp/a") /\
    GetDstPath e = string_of_c_str None /\
    GetMode e = queried_mode sample_env true (string_of_c_str (Some "/tmp/a")) /\
    stat_log w' = (stat_log initial_world ++ [string_of_c_str (Some "/tmp/a")])%list /\
    trackedPaths_ w' = trackedPaths_ initial_world.
Proof.
  apply (proj2 (proj2 (DEFAULT_EVENT_CONSTRUCTOR_NO_RESOLVE_ignores_mode sample_env
                         ES_EVENT_TYPE_NOTIFY_CLOSE (Some "/tmp/a") None false 0
                         initial_world))).
  reflexivity.
Defined.

(** X10.  The stat constructor always returns: it sends one event that
    carries the mode the wrapper's [struct stat] holds, without a [stat]
    of its own, whatever the executable path of the process is, the empty
    one included; the path exists for the event exactly when that mode is
    not [0]. *)
Theorem STAT_EVENT_CONSTRUCTOR_reports env type src st_mode result w :
  exists e w',
    STAT_EVENT_CONSTRUCTOR env type src st_mode result w = Ok (result, w') /\
    sandbox_log w'
    = (sandbox_log w ++
       [{| report_event := e; report_type := type; report_flags := [] |}])%list /\
    GetPid e = getpid env /\ GetChildPid e = 0 /\ GetParentPid e = getppid env /\
    GetEventType e = type /\ GetSrcPath e = src /\ GetDstPath e = "" /\
    GetExecutablePath e = get_executable_path env (getpid env) /\
    GetMode e = st_mode /\ EventPathExists e = negb (st_mode =? 0) /\
    stat_log w' = stat_log w /\ trackedPaths_ w' = trackedPaths_ w.
Proof.
  eexists _, _. split; [apply STAT_EVENT_CONSTRUCTOR_run|].
  simpl. rewrite app_nil_r. by repeat split.
Qed.

(** X11.  The exec and exit constructors never look at the file system:
    for a process with an executable path each sends one event, of type
    [NOTIFY_EXEC] for the given path (with the one trailing argument
    [true]) and of type [NOTIFY_EXIT] with empty paths, whose mode is [0],
    so that the path does not exist for the event; no [stat] is made and
    the tracked paths stay as they are. *)
Theorem EXEC_EXIT_EVENT_CONSTRUCTOR_report env path w :
  str_empty (get_executable_path env (getpid env)) = false ->
  (exists e w',
      EXEC_EVENT_CONSTRUCTOR env path w = Ok (tt, w') /\
      sandbox_log w'
      = (sandbox_log w ++
         [{| report_event := e; report_type := ES_EVENT_TYPE_NOTIFY_EXEC;
             report_flags := [true] |}])%list /\
      GetEventType e = ES_EVENT_TYPE_NOTIFY_EXEC /\
      GetPid e = getpid env /\ GetChildPid e = 0 /\ GetParentPid e = getppid env /\
      GetSrcPath e = string_of_c_str path /\ GetDstPath e = "" /\
      GetExecutablePath e = get_executable_path env (getpid env) /\
      GetMode e = 0 /\ EventPathExists e = false /\
      stat_log w' = stat_log w /\ trackedPaths_ w' = trackedPaths_ w) /\
  (exists e w',
      EXIT_EVENT_CONSTRUCTOR env w = Ok (tt, w') /\
      sandbox_log w'
      = (sandbox_log w ++
         [{| report_event := e; report_type := ES_EVENT_TYPE_NOTIFY_EXIT;
             report_flags := [] |}])%list /\
      GetEventType e = ES_EVENT_TYPE_NOTIFY_EXIT /\
      GetPid e = getpid env /\ GetChildPid e = 0 /\ GetParentPid e = getppid env /\
      GetSrcPath e = "" /\ GetDstPath e = "" /\
      GetExecutablePath e = get_executable_path env (getpid env) /\
      GetMode e = 0 /\ EventPathExists e = false /\
      stat_log w' = stat_log w /\ trackedPaths_ w' = trackedPaths_ w).
Proof.
  intros Hexec. split.
  - eexists _, _. split; [by apply EXEC_EVENT_CONSTRUCTOR_run|]. by repeat split.
  - eexists _, _. split; [by apply EXIT_EVENT_CONSTRUCTOR_run|]. by repeat split.
Qed.

Lemma EXEC_EXIT_EVENT_CONSTRUCTOR_report_witness :
  exists e w',
    EXEC_EVENT_CONSTRUCTOR sample_env (Some "/tmp/a") initial_world = Ok (tt, w') /\
    sandbox_log w'
    = (sandbox_log initial_world ++
       [{| report_event := e; report_type := ES_EVENT_TYPE_NOTIFY_EXEC;
           report_flags := [true] |}])%list /\
    GetEventType e = ES_EVENT_TYPE_NOTIFY_EXEC /\
    GetPid e = getpid sample_env /\ GetChildPid e = 0 /\
    GetParentPid e = getppid sample_env /\
    GetSrcPath e = string_of_c_str (Some "/tmp/a") /\ GetDstPath e = "" /\
    GetExecutablePath e = get_executable_path sample_env (getpid sample_env) /\
    GetMode e = 0 /\ EventPathExists e = false /\
    stat_log w' = stat_log initial_world /\
    trackedPaths_ w' = trackedPaths_ initial_world.
Proof.
  apply (proj1 (EXEC_EXIT_EVENT_CONSTRUCTOR_report sample_env (Some "/tmp/a")
                  initial_world eq_refl)).
Defined.

(** ** The tracked paths *)

(** X12.  A write wrapper only ever adds the path it writes to the tracked
    paths: every entry that was there stays as it was, so the descriptor
    recorded for a path is the one of its first reported write; the other
    paths are not touched; and a failed write adds nothing. *)
Theorem WRITE_EVENT_CONSTRUCTOR_tracks env path dst success fildes result w :
  str_empty (get_executable_path env (getpid env)) = false ->
  exists w',
    WRITE_EVENT_CONSTRUCTOR env path dst success fildes result w = Ok (result, w') /\
    (forall p entry,
        trackedPaths_ w !! p = Some entry -> trackedPaths_ w' !! p = Some entry) /\
    (forall p, p <> path -> trackedPaths_ w' !! p = trackedPaths_ w !! p) /\
    (success <> 0 -> trackedPaths_ w' = trackedPaths_ w) /\
    (success = 0 ->
     trackedPaths_ w' !! path
     = Some (default {| entry_fildes := fildes |} (trackedPaths_ w !! path))).
Proof.
  intros Hexec.
  destruct (decide (success = 0)) as [-> | Hfailed].
  - destruct (trackedPaths_ w !! path) as [entry|] eqn:Hentry.
    + exists w. split; [apply WRITE_EVENT_CONSTRUCTOR_tracked; by rewrite Hentry|].
      by repeat split.
    + exists (world_after_write env path dst fildes w).
      split; [by apply WRITE_EVENT_CONSTRUCTOR_first|]. simpl.
      split; [|split; [|split]].
      * intros p entry Hp. rewrite lookup_insert_ne; [done|]. congruence.
      * intros p Hp. by rewrite lookup_insert_ne.
      * done.
      * intros _. apply lookup_insert_eq.
  - exists w. split; [by apply WRITE_EVENT_CONSTRUCTOR_failed|]. by repeat split.
Qed.

Lemma WRITE_EVENT_CONSTRUCTOR_tracks_witness :
  exists w',
    WRITE_EVENT_CONSTRUCTOR sample_env "/tmp/a" None 0 3 5 initial_world = Ok (5, w') /\
    (forall p entry,
        trackedPaths_ initial_world !! p = Some entry ->
        trackedPaths_ w' !! p = Some entry) /\
    (forall p, p <> "/tmp/a" -> trackedPaths_ w' !! p = trackedPaths_ initial_world !! p) /\
    (0 <> 0 -> trackedPaths_ w' = trackedPaths_ initial_world) /\
    (0 = 0 ->
     trackedPaths_ w' !! "/tmp/a"
     = Some (default {| entry_fildes := 3 |} (trackedPaths_ initial_world !! "/tmp/a"))).
Proof.
  apply (WRITE_EVENT_CONSTRUCTOR_tracks sample_env "/tmp/a" None 0 3 5 initial_world).
  reflexivity.
Defined.

(** X13.  The tracked paths are compared path by path: successful writes
    to two different untracked paths send two write events, in the order
    of the writes, and track both paths. *)
Theorem WRITE_EVENT_CONSTRUCTOR_two_paths env path1 path2 dst1 dst2 fildes1 fildes2
    result1 result2 w :
  str_empty (get_executable_path env (getpid env)) = false ->
  path1 <> path2 ->
  trackedPaths_ w !! path1 = None ->
  trackedPaths_ w !! path2 = None ->
  exists e1 e2 w',
    (WRITE_EVENT_CONSTRUCTOR env path1 dst1 0 fildes1 result1 ;;
     WRITE_EVENT_CONSTRUCTOR env path2 dst2 0 fildes2 result2) w = Ok (result2, w') /\
    sandbox_log w'
    = (sandbox_log w ++
       [{| report_event := e1; report_type := ES_EVENT_TYPE_NOTIFY_WRITE;
           report_flags := [] |};
        {| report_event := e2; report_type := ES_EVENT_TYPE_NOTIFY_WRITE;
           report_flags := [] |}])%list /\
    GetSrcPath e1 = path1 /\ GetSrcPath e2 = path2 /\
    trackedPaths_ w' !! path1 = Some {| entry_fildes := fildes1 |} /\
    trackedPaths_ w' !! path2 = Some {| entry_fildes := fildes2 |}.
Proof.
  intros Hexec Hne Hfresh1 Hfresh2.
  eexists _, _, _. split.
  - unfold mbind, M_bind.
    rewrite WRITE_EVENT_CONSTRUCTOR_first by done.
    rewrite WRITE_EVENT_CONSTRUCTOR_first; [reflexivity | done |].
    simpl. by rewrite lookup_insert_ne.
  - simpl. rewrite <- app_assoc. simpl.
    split; [reflexivity|]. split; [reflexivity|]. split; [reflexivity|].
    split; [|apply lookup_insert_eq].
    rewrite lookup_insert_ne by congruence. apply lookup_insert_eq.
Qed.

Lemma WRITE_EVENT_CONSTRUCTOR_two_paths_witness :
  exists e1 e2 w',
    (WRITE_EVENT_CONSTRUCTOR sample_env "/tmp/a" None 0 3 5 ;;
     WRITE_EVENT_CONSTRUCTOR sample_env "/tmp/b" None 0 4 7) initial_world
    = Ok (7, w') /\
    sandbox_log w'
    = (sandbox_log initial_world ++
       [{| report_event := e1; report_type := ES_EVENT_TYPE_NOTIFY_WRITE;
           report_flags := [] |};
        {| report_event := e2; report_type := ES_EVENT_TYPE_NOTIFY_WRITE;
           report_flags := [] |}])%list /\
    GetSrcPath e1 = "/tmp/a" /\ GetSrcPath e2 = "/tmp/b" /\
    trackedPaths_ w' !! "/tmp/a" = Some {| entry_fildes := 3 |} /\
    trackedPaths_ w' !! "/tmp/b" = Some {| entry_fildes := 4 |}.
Proof.
  apply (WRITE_EVENT_CONSTRUCTOR_two_paths sample_env "/tmp/a" "/tmp/b" None None 3 4 5 7
           initial_world); done.
Defined.

(** X14.  A failed write does not count as reported: after a failed write
    to an untracked path, a successful write to the same path still sends
    its event, as if the failed write had not happened. *)
Theorem WRITE_EVENT_CONSTRUCTOR_failed_then_successful env path dst1 dst2 failure
    fildes1 fildes2 result1 result2 w :
  str_empty (get_executable_path env (getpid env)) = false ->
  failure <> 0 ->
  trackedPaths_ w !! path = None ->
  exists e w',
    (WRITE_EVENT_CONSTRUCTOR env path dst1 failure fildes1 result1 ;;
     WRITE_EVENT_CONSTRUCTOR env path dst2 0 fildes2 result2) w = Ok (result2, w') /\
    WRITE_EVENT_CONSTRUCTOR env path dst2 0 fildes2 result2 w = Ok (result2, w') /\
    sandbox_log w'
    = (sandbox_log w ++
       [{| report_event := e; report_type := ES_EVENT_TYPE_NOTIFY_WRITE;
           report_flags := [] |}])%list /\
    GetSrcPath e = path /\ GetDstPath e = string_of_c_str dst2 /\
    trackedPaths_ w' !! path = Some {| entry_fildes := fildes2 |}.
Proof.
  intros Hexec Hfailure Hfresh.
  eexists _, _. split; [|split; [by apply WRITE_EVENT_CONSTRUCTOR_first|]].
  - unfold mbind, M_bind.
    rewrite WRITE_EVENT_CONSTRUCTOR_failed by done.
    by apply WRITE_EVENT_CONSTRUCTOR_first.
  - simpl. split; [reflexivity|]. split; [reflexivity|]. split; [reflexivity|].
    apply lookup_insert_eq.
Qed.

Lemma WRITE_EVENT_CONSTRUCTOR_failed_then_successful_witness :
  exists e w',
    (WRITE_EVENT_CONSTRUCTOR sample_env "/tmp/a" None (-1) 3 (-1) ;;
     WRITE_EVENT_CONSTRUCTOR sample_env "/tmp/a" None 0 3 5) initial_world
    = Ok (5, w') /\
    WRITE_EVENT_CONSTRUCTOR sample_env "/tmp/a" None 0 3 5 initial_world = Ok (5, w') /\
    sandbox_log w'
    = (sandbox_log initial_world ++
       [{| report_event := e; report_type := ES_EVENT_TYPE_NOTIFY_WRITE;
           report_flags := [] |}])%list /\
    GetSrcPath e = "/tmp/a" /\ GetDstPath e = string_of_c_str None /\
    trackedPaths_ w' !! "/tmp/a" = Some {| entry_fildes := 3 |}.
Proof.
  apply (WRITE_EVENT_CONSTRUCTOR_failed_then_successful sample_env "/tmp/a" None None
           (-1) 3 3 (-1) 5 initial_world); done.
Defined.

(** ** Runs of a process *)

Lemma interposed_event_report pid cpid ppid type src dst exec mode flags :
  interposed_report
    {| report_event := interposed_event pid cpid ppid type src dst exec mode;
       report_type := type; report_flags := flags |}.
Proof. by repeat split. Qed.

(** What one operation does to the reports, the tracked paths and
    [errno], when it returns. *)
Lemma run_call_step env c w w' :
  run_call env c w = Ok (tt, w') ->
  ((sandbox_log w' = sandbox_log w /\ trackedPaths_ w' = trackedPaths_ w) \/
   (exists r,
       sandbox_log w' = (sandbox_log w ++ [r])%list /\
       interposed_report r /\
       (trackedPaths_ w' = trackedPaths_ w \/
        (report_type r = ES_EVENT_TYPE_NOTIFY_WRITE /\
         trackedPaths_ w !! GetSrcPath (report_event r) = None /\
         exists entry,
           trackedPaths_ w'
           = <[GetSrcPath (report_event r) := entry]> (trackedPaths_ w))))) /\
  (saves_errno c = true -> errno w' = errno w).
Proof.
  destruct c as [type src dst mode result | type src dst mode report result | path |
                 | result child_pid pid ppid cmp | type src st_mode result
                 | path dst success fildes result];
    cbn [run_call saves_errno]; unfold mbind, M_bind.
  - destruct (str_empty (get_executable_path env (getpid env))) eqn:Hexec.
    + by rewrite DEFAULT_EVENT_CONSTRUCTOR_abort.
    + rewrite DEFAULT_EVENT_CONSTRUCTOR_run by done. intros [= <-].
      split; [right|done]. eexists. split; [reflexivity|].
      split; [apply interposed_event_report | by left].
  - destruct report.
    + destruct (str_empty (get_executable_path env (getpid env))) eqn:Hexec.
      * by rewrite DEFAULT_EVENT_CONSTRUCTOR_NO_RESOLVE_abort.
      * rewrite DEFAULT_EVENT_CONSTRUCTOR_NO_RESOLVE_run by done. intros [= <-].
        split; [right|done]. eexists. split; [reflexivity|].
        split; [apply interposed_event_report | by left].
    + rewrite DEFAULT_EVENT_CONSTRUCTOR_NO_RESOLVE_skip. intros [= <-].
      split; [by left | done].
  - destruct (str_empty (get_executable_path env (getpid env))) eqn:Hexec.
    + by rewrite EXEC_EVENT_CONSTRUCTOR_abort.
    + rewrite EXEC_EVENT_CONSTRUCTOR_run by done. intros [= <-].
      split; [right|done]. eexists. split; [reflexivity|].
      split; [apply interposed_event_report | by left].
  - destruct (str_empty (get_executable_path env (getpid env))) eqn:Hexec.
    + by rewrite EXIT_EVENT_CONSTRUCTOR_abort.
    + rewrite EXIT_EVENT_CONSTRUCTOR_run by done. intros [= <-].
      split; [right|done]. eexists. split; [reflexivity|].
      split; [apply interposed_event_report | by left].
  - destruct (eval_cmp cmp result 0) eqn:Hcmp.
    + destruct (str_empty (get_executable_path env child_pid)) eqn:Hexec.
      * by rewrite FORK_EVENT_CONSTRUCTOR_abort.
      * rewrite FORK_EVENT_CONSTRUCTOR_run by done. intros [= <-].
        split; [right|done]. eexists. split; [reflexivity|].
        split; [apply interposed_event_report | by left].
    + rewrite FORK_EVENT_CONSTRUCTOR_skip by done. intros [= <-].
      split; [by left | done].
  - rewrite STAT_EVENT_CONSTRUCTOR_run. intros [= <-].
    split; [right|done]. eexists. split; [reflexivity|].
    split; [apply interposed_event_report | by left].
  - destruct (decide (success = 0)) as [-> | Hfailed].
    + destruct (trackedPaths_ w !! path) as [entry|] eqn:Hentry.
      * rewrite WRITE_EVENT_CONSTRUCTOR_tracked by (by rewrite Hentry).
        intros [= <-]. split; [by left | done].
      * destruct (str_empty (get_executable_path env (getpid env))) eqn:Hexec.
        -- by rewrite WRITE_EVENT_CONSTRUCTOR_abort.
        -- rewrite WRITE_EVENT_CONSTRUCTOR_first by done. intros [= <-].
           split; [right|done]. eexists. split; [reflexivity|].
           split; [by repeat split|]. right. simpl.
           split; [done|]. split; [done|]. by eexists.
    + rewrite WRITE_EVENT_CONSTRUCTOR_failed by done.
      intros [= <-]. split; [by left | done].
Qed.

Lemma run_calls_cons env c cs w w' :
  run_calls env (c :: cs) w = Ok (tt, w') ->
  exists w1, run_call env c w = Ok (tt, w1) /\ run_calls env cs w1 = Ok (tt, w').
Proof.
  cbn [run_calls]. unfold mbind, M_bind.
  destruct (run_call env c w) as [[[] w1]|f]; [|done].
  intros Hrest. by exists w1.
Qed.

(** X15.  Reports are only ever appended.  When a run of operations
    returns, the reports are the ones there were before followed by at
    most one new report per operation; the type each new report was sent
    with is the type of its event, its modified flag is unset, its
    original parent pid is its parent pid and its audit token is
    unassigned; and the tracked paths of before are all still tracked, with
    their entries. *)
Theorem run_calls_appends_reports env cs w w' :
  run_calls env cs w = Ok (tt, w') ->
  exists new,
    sandbox_log w' = (sandbox_log w ++ new)%list /\
    (Z.of_nat (List.length new) <= Z.of_nat (List.length cs)) /\
    Forall interposed_report new /\
    trackedPaths_ w ⊆ trackedPaths_ w'.
Proof.
  revert w. induction cs as [|c cs IH]; intros w Hrun.
  - injection Hrun as <-. exists []. rewrite app_nil_r. by repeat split.
  - apply run_calls_cons in Hrun as (w1 & Hstep & Hrest).
    destruct (IH w1 Hrest) as (new & Hlog & Hlen & Hall & Hsub).
    apply run_call_step in Hstep as [[[Hlog1 Htracked1] | (r & Hlog1 & Hr & Htracked1)] _].
    + exists new. rewrite Hlog, Hlog1, <- Htracked1.
      split; [done|]. split; [cbn [List.length]; lia|]. by split.
    + exists (r :: new). rewrite Hlog, Hlog1, <- app_assoc.
      split; [done|]. split; [cbn [List.length]; lia|].
      split; [by constructor|].
      destruct Htracked1 as [<- | (_ & Hfresh & entry & Hins)]; [done|].
      etrans; [|exact Hsub]. rewrite Hins. by apply insert_subseteq.
Qed.

Lemma run_calls_appends_reports_witness :
  exists w' new,
    run_calls sample_env sample_run initial_world = Ok (tt, w') /\
    sandbox_log w' = (sandbox_log initial_world ++ new)%list /\
    (Z.of_nat (List.length new) <= Z.of_nat (List.length sample_run)) /\
    Forall interposed_report new /\
    trackedPaths_ initial_world ⊆ trackedPaths_ w'.
Proof.
  eexists.
  assert (Hrun : run_calls sample_env sample_run initial_world = Ok (tt, _))
    by (vm_compute; reflexivity).
  destruct (run_calls_appends_reports sample_env sample_run initial_world _ Hrun)
    as (new & Hnew).
  exists new. split; [exact Hrun | exact Hnew].
Defined.

(** X16.  Every tracked path has been reported.  If every tracked path
    has a write event for it among the reports, then so it is after any
    run of operations that returns: a path gets tracked only together with
    the write event sent for it, and neither is ever removed. *)
Theorem run_calls_tracked_reported env cs w w' :
  tracked_reported w ->
  run_calls env cs w = Ok (tt, w') ->
  tracked_reported w'.
Proof.
  revert w. induction cs as [|c cs IH]; intros w Hinv Hrun.
  - by injection Hrun as <-.
  - apply run_calls_cons in Hrun as (w1 & Hstep & Hrest).
    apply (IH w1); [|done].
    apply run_call_step in Hstep as [[[Hlog1 Htracked1] | (r & Hlog1 & Hr & Htracked1)] _].
    + intros path entry. rewrite Htracked1, Hlog1. apply Hinv.
    + intros path entry Hpath.
      destruct Htracked1 as [Hsame | (Htype & Hfresh & entry' & Hins)].
      * rewrite Hsame in Hpath.
        destruct (Hinv path entry Hpath) as (r' & Hin & Hr').
        exists r'. rewrite Hlog1. split; [|done].
        apply elem_of_app. by left.
      * rewrite Hins in Hpath.
        destruct (decide (GetSrcPath (report_event r) = path)) as [Heq | Hne].
        -- exists r. rewrite Hlog1. split; [|done].
           apply elem_of_app. right. by apply list_elem_of_singleton.
        -- rewrite lookup_insert_ne in Hpath by done.
           destruct (Hinv path entry Hpath) as (r' & Hin & Hr').
           exists r'. rewrite Hlog1. split; [|done].
           apply elem_of_app. by left.
Qed.

Lemma run_calls_tracked_reported_witness :
  exists w',
    run_calls sample_env sample_run initial_world = Ok (tt, w') /\
    trackedPaths_ w' !! "/tmp/a" = Some {| entry_fildes := 3 |} /\
    tracked_reported w'.
Proof.
  eexists.
  assert (Hrun : run_calls sample_env sample_run initial_world = Ok (tt, _))
    by (vm_compute; reflexivity).
  split; [exact Hrun|]. split; [vm_compute; reflexivity|].
  apply (run_calls_tracked_reported sample_env sample_run initial_world _); [|exact Hrun].
  intros path entry Hpath. simpl in Hpath. by rewrite lookup_empty in Hpath.
Defined.

Lemma run_call_returns env c w :
  (forall pid, str_empty (get_executable_path env pid) = false) ->
  exists w', run_call env c w = Ok (tt, w').
Proof.
  intros Hexec.
  destruct c as [type src dst mode result | type src dst mode report result | path |
                 | result child_pid pid ppid cmp | type src st_mode result
                 | path dst success fildes result];
    cbn [run_call]; unfold mbind, M_bind.
  - rewrite DEFAULT_EVENT_CONSTRUCTOR_run by done. by eexists.
  - destruct report.
    + rewrite DEFAULT_EVENT_CONSTRUCTOR_NO_RESOLVE_run by done. by eexists.
    + rewrite DEFAULT_EVENT_CONSTRUCTOR_NO_RESOLVE_skip. by eexists.
  - rewrite EXEC_EVENT_CONSTRUCTOR_run by done. by eexists.
  - rewrite EXIT_EVENT_CONSTRUCTOR_run by done. by eexists.
  - destruct (eval_cmp cmp result 0) eqn:Hcmp.
    + rewrite FORK_EVENT_CONSTRUCTOR_run by done. by eexists.
    + rewrite FORK_EVENT_CONSTRUCTOR_skip by done. by eexists.
  - rewrite STAT_EVENT_CONSTRUCTOR_run. by eexists.
  - destruct (decide (success = 0)) as [-> | Hfailed].
    + destruct (trackedPaths_ w !! path) as [entry|] eqn:Hentry.
      * rewrite WRITE_EVENT_CONSTRUCTOR_tracked by (by rewrite Hentry). by eexists.
      * rewrite WRITE_EVENT_CONSTRUCTOR_first by done. by eexists.
    + rewrite WRITE_EVENT_CONSTRUCTOR_failed by done. by eexists.
Qed.

(** X17.  When every process has an executable path, every run of
    operations returns; and when none of the operations is an exec or an
    exit, [errno] after the run is [errno] before it, whatever the
    [stat] calls, the path lookups and the transport did to it in
    between. *)
Theorem run_calls_restores_errno env cs w :
  (forall pid, str_empty (get_executable_path env pid) = false) ->
  exists w',
    run_calls env cs w = Ok (tt, w') /\
    (forallb saves_errno cs = true -> errno w' = errno w).
Proof.
  intros Hexec. revert w. induction cs as [|c cs IH]; intros w.
  - exists w. by split.
  - destruct (run_call_returns env c w Hexec) as (w1 & Hstep).
    destruct (IH w1) as (w' & Hrest & Herrno).
    exists w'. split.
    + cbn [run_calls]. unfold mbind, M_bind. by rewrite Hstep.
    + cbn [forallb]. intros [Hc Hcs]%andb_true_iff.
      apply run_call_step in Hstep as [_ Hstep].
      rewrite Herrno, Hstep; done.
Qed.

Lemma run_calls_restores_errno_witness :
  exists w',
    run_calls sample_env sample_run initial_world = Ok (tt, w') /\
    (forallb saves_errno sample_run = true -> errno w' = errno initial_world).
Proof.
  apply (run_calls_restores_errno sample_env sample_run initial_world).
  intros pid. simpl. by destruct (pid =? 200).
Defined.

(** ** The kernel-message macro *)

(** X18.  [ES_EVENT_CONSTRUCTOR] sets the source path to the extracted path
    of the file it is given, takes the mode of that file only when its
    mode argument is set, and ends in [break] as its last argument says;
    it never touches the destination path, the executable path, the pids,
    the event type, the modified flag or the security context.  Applied
    twice, the source path is the one of the second file, and the mode is
    that of the last application whose mode argument was set. *)
Theorem ES_EVENT_CONSTRUCTOR_sets_source (PathExtractor_Path : es_file_t -> string)
    (file file' : es_file_t) (mode mode' do_break do_break' : bool) (e : IOEvent) :
  let r := ES_EVENT_CONSTRUCTOR PathExtractor_Path file mode do_break e in
  let r' := ES_EVENT_CONSTRUCTOR PathExtractor_Path file' mode' do_break' (fst r) in
  snd r = do_break /\
  GetSrcPath (fst r) = PathExtractor_Path file /\
  GetMode (fst r) = (if mode then file_st_mode file else GetMode e) /\
  GetDstPath (fst r) = GetDstPath e /\
  GetExecutablePath (fst r) = GetExecutablePath e /\
  GetPid (fst r) = GetPid e /\ GetChildPid (fst r) = GetChildPid e /\
  GetParentPid (fst r) = GetParentPid e /\
  GetOriginalParentPid (fst r) = GetOriginalParentPid e /\
  GetProcessAuditToken (fst r) = GetProcessAuditToken e /\
  GetEventType (fst r) = GetEventType e /\
  FSEntryModified (fst r) = FSEntryModified e /\
  GetSrcPath (fst r') = PathExtractor_Path file' /\
  GetMode (fst r')
  = (if mode' then file_st_mode file'
     else if mode then file_st_mode file else GetMode e).
Proof. simpl. by repeat split. Qed.

(** ** The write and the default constructor *)

(** X19.  The first successful write to a path is reported as the default
    constructor would report a [NOTIFY_WRITE] event with the mode queried:
    both send the same report after the same [stat] and leave [errno] as
    it was; the write constructor tracks the path besides. *)
Theorem WRITE_EVENT_CONSTRUCTOR_as_DEFAULT env path dst fildes result w :
  str_empty (get_executable_path env (getpid env)) = false ->
  trackedPaths_ w !! path = None ->
  exists w1 w2,
    WRITE_EVENT_CONSTRUCTOR env path dst 0 fildes result w = Ok (result, w1) /\
    DEFAULT_EVENT_CONSTRUCTOR env ES_EVENT_TYPE_NOTIFY_WRITE (Some path) dst true result w
    = Ok (result, w2) /\
    sandbox_log w1 = sandbox_log w2 /\
    stat_log w1 = stat_log w2 /\
    errno w1 = errno w2 /\
    trackedPaths_ w1 = <[path := {| entry_fildes := fildes |}]> (trackedPaths_ w2).
Proof.
  intros Hexec Hfresh. eexists _, _.
  split; [by apply WRITE_EVENT_CONSTRUCTOR_first|].
  split; [by apply DEFAULT_EVENT_CONSTRUCTOR_run|].
  by repeat split.
Qed.

Lemma WRITE_EVENT_CONSTRUCTOR_as_DEFAULT_witness :
  exists w1 w2,
    WRITE_EVENT_CONSTRUCTOR sample_env "/tmp/a" None 0 3 5 initial_world = Ok (5, w1) /\
    DEFAULT_EVENT_CONSTRUCTOR sample_env ES_EVENT_TYPE_NOTIFY_WRITE (Some "/tmp/a") None
      true 5 initial_world = Ok (5, w2) /\
    sandbox_log w1 = sandbox_log w2 /\
    stat_log w1 = stat_log w2 /\
    errno w1 = errno w2 /\
    trackedPaths_ w1 = <[ "/tmp/a" := {| entry_fildes := 3 |}]> (trackedPaths_ w2).
Proof.
  apply (WRITE_EVENT_CONSTRUCTOR_as_DEFAULT sample_env "/tmp/a" None 3 5 initial_world);
    done.
Defined.
